(** * Overstayr: visa countdown, reminder planning and notification handles

    A shallow embedding of the date arithmetic, the status classification
    and list ordering of the home screen, the settings reader, and the
    create and delete flows with their calls to the notification service
    and to AsyncStorage.

    Layout: the host-language semantics the code relies on (numbers,
    strings, [Date]) come first, then the services ([storage.ts],
    [settings.ts], [notifications.ts]), then the two screens, then the
    properties. *)

From Stdlib Require Import ZArith QArith Qround List Bool Ascii Lia Permutation Sorted.
From stdpp Require Import gmap strings pretty.
Close Scope Q_scope.
Local Open Scope Z_scope.

(* ================================================================= *)
(** * Host language: numbers, strings and Date                        *)
(* ================================================================= *)

Module JS.

(** ** Numbers

    A finite double is recorded by its exact rational value; every finite
    quantity below is an integer of magnitude under [2^53] or is floored or
    truncated to one before use, so the arithmetic on it is exact. *)
Inductive number : Type :=
| Fin (q : Q)
| NaN
| PosInf
| NegInf.

(** [Number.isFinite] *)
Definition isFinite (n : number) : bool :=
  match n with Fin _ => true | _ => false end.

(** [Math.floor] on a finite number. *)
Definition floor (q : Q) : Z := Qfloor q.

(** [ToIntegerOrInfinity] on a finite number: truncation towards zero. *)
Definition ToIntegerOrInfinity (q : Q) : Z := Z.quot (Qnum q) (Zpos (Qden q)).

Definition Qlt_bool (p q : Q) : bool := negb (Qle_bool q p).

(** ** Strings

    Form fields and stored values are strings of ASCII characters. *)

Definition code (c : ascii) : Z := Z.of_N (Ascii.N_of_ascii c).

Definition digit (c : ascii) : option Z :=
  if (48 <=? code c) && (code c <=? 57) then Some (code c - 48) else None.

(** White space stripped by [String.prototype.trim]: TAB, LF, VT, FF, CR
    and SPACE. *)
Definition isWhiteSpace (c : ascii) : bool :=
  ((9 <=? code c) && (code c <=? 13)) || (code c =? 32).

Fixpoint trimStart (s : string) : string :=
  match s with
  | String c r => if isWhiteSpace c then trimStart r else s
  | EmptyString => EmptyString
  end.

Fixpoint trimEnd (s : string) : string :=
  match s with
  | String c r =>
      match trimEnd r with
      | EmptyString => if isWhiteSpace c then EmptyString else String c EmptyString
      | r' => String c r'
      end
  | EmptyString => EmptyString
  end.

Definition trim (s : string) : string := trimEnd (trimStart s).

Definition upper (c : ascii) : ascii :=
  if (97 <=? code c) && (code c <=? 122)
  then Ascii.ascii_of_N (Z.to_N (code c - 32)) else c.

Fixpoint toUpperCase (s : string) : string :=
  match s with
  | String c r => String (upper c) (toUpperCase r)
  | EmptyString => EmptyString
  end.

Definition isUpperLetter (c : ascii) : bool := (65 <=? code c) && (code c <=? 90).

(** [String(n).padStart(w, "0")] for a non-negative integer. *)
Definition pad (w : nat) (z : Z) : string :=
  let s := pretty z in
  String.concat EmptyString (replicate (w - String.length s) "0"%string) +:+ s.

(** ** Date: time values in milliseconds since the epoch

    The functions of the language specification, by their names there. *)

Definition msPerDay : Z := 86400000.
Definition msPerHour : Z := 3600000.
Definition msPerMinute : Z := 60000.
Definition msPerSecond : Z := 1000.

Definition Day (t : Z) : Z := t / msPerDay.
Definition TimeWithinDay (t : Z) : Z := t mod msPerDay.

(** Day number of the first day of year [y]. *)
Definition DayFromYear (y : Z) : Z :=
  365 * (y - 1970) + (y - 1969) / 4 - (y - 1901) / 100 + (y - 1601) / 400.

(** [DaysInYear y - 365]. *)
Definition LeapDays (y : Z) : Z :=
  if ((y mod 4 =? 0) && negb (y mod 100 =? 0)) || (y mod 400 =? 0) then 1 else 0.

(** The largest [y] with [DayFromYear y <= d]: an estimate from the mean
    length of a year, corrected by one where needed. *)
Definition YearFromDay (d : Z) : Z :=
  let y0 := 1970 + (400 * d) / 146097 in
  if d <? DayFromYear y0 then y0 - 1
  else if DayFromYear (y0 + 1) <=? d then y0 + 1
  else y0.

Definition YearFromTime (t : Z) : Z := YearFromDay (Day t).
Definition InLeapYear (t : Z) : Z := LeapDays (YearFromTime t).
Definition DayWithinYear (t : Z) : Z := Day t - DayFromYear (YearFromTime t).

(** Day within the year on which month [m] (0 = January) starts; [12]
    stands for the start of the next year. *)
Definition MonthStart (leap m : Z) : Z :=
  match m with
  | 0 => 0
  | 1 => 31
  | 2 => 59 + leap
  | 3 => 90 + leap
  | 4 => 120 + leap
  | 5 => 151 + leap
  | 6 => 181 + leap
  | 7 => 212 + leap
  | 8 => 243 + leap
  | 9 => 273 + leap
  | 10 => 304 + leap
  | 11 => 334 + leap
  | _ => 365 + leap
  end.

Definition MonthFromTime (t : Z) : Z :=
  let d := DayWithinYear t in
  let l := InLeapYear t in
  if d <? 31 then 0
  else if d <? 59 + l then 1
  else if d <? 90 + l then 2
  else if d <? 120 + l then 3
  else if d <? 151 + l then 4
  else if d <? 181 + l then 5
  else if d <? 212 + l then 6
  else if d <? 243 + l then 7
  else if d <? 273 + l then 8
  else if d <? 304 + l then 9
  else if d <? 334 + l then 10
  else 11.

Definition DateFromTime (t : Z) : Z :=
  DayWithinYear t - MonthStart (InLeapYear t) (MonthFromTime t) + 1.

Definition HourFromTime (t : Z) : Z := (t / msPerHour) mod 24.
Definition MinFromTime (t : Z) : Z := (t / msPerMinute) mod 60.
Definition SecFromTime (t : Z) : Z := (t / msPerSecond) mod 60.
Definition msFromTime (t : Z) : Z := t mod msPerSecond.

Definition MakeTime (h m s ms : Z) : Z :=
  h * msPerHour + m * msPerMinute + s * msPerSecond + ms.

Definition MakeDay (year month date : Z) : Z :=
  let ym := year + month / 12 in
  let mn := month mod 12 in
  DayFromYear ym + MonthStart (LeapDays ym) mn + date - 1.

Definition MakeDate (day time : Z) : Z := day * msPerDay + time.

(** Years 0 to 99 given to [Date.UTC] or to the [Date] constructor mean
    1900 to 1999. *)
Definition MakeFullYear (y : Z) : Z :=
  if (0 <=? y) && (y <=? 99) then 1900 + y else y.

(** A [Date] holds a time value; [None] is the invalid date (time value
    [NaN]). *)
Definition Date : Type := option Z.

Definition TimeClip (t : Z) : Date :=
  if Z.abs t >? 8640000000000000 then None else Some t.

(** The device time zone is a fixed offset from UTC, in milliseconds
    ([LocalTZA]). *)
Definition LocalTime (tza t : Z) : Z := t + tza.
Definition UTC (tza t : Z) : Z := t - tza.

(** [Date.UTC(year, month, date)] *)
Definition Date_UTC (year month date : Z) : Date :=
  TimeClip (MakeDate (MakeDay (MakeFullYear year) month date) (MakeTime 0 0 0 0)).

(** [new Date(year, month, date)]: local midnight. *)
Definition Date_local (tza year month date : Z) : Date :=
  TimeClip (UTC tza (MakeDate (MakeDay (MakeFullYear year) month date)
                              (MakeTime 0 0 0 0))).

(** [d.setUTCDate(dt)] on a valid date with a finite argument. *)
Definition setUTCDate (t : Z) (dt : Q) : Date :=
  TimeClip (MakeDate (MakeDay (YearFromTime t) (MonthFromTime t)
                              (ToIntegerOrInfinity dt))
                     (TimeWithinDay t)).

(** [d.setHours(hour, min, sec, ms)] on a valid date. *)
Definition setHours (tza t hour min sec ms : Z) : Date :=
  TimeClip (UTC tza (MakeDate (Day (LocalTime tza t)) (MakeTime hour min sec ms))).

(** The test [/^\d{4}-\d{2}-\d{2}$/] followed by
    [s.split("-").map(Number)]: the three fields as integers. *)
Definition dateFields (s : string) : option (Z * Z * Z) :=
  match String.list_ascii_of_string s with
  | [y1; y2; y3; y4; h1; m1; m2; h2; d1; d2] =>
      if Ascii.eqb h1 "-" && Ascii.eqb h2 "-" then
        match digit y1, digit y2, digit y3, digit y4,
              digit m1, digit m2, digit d1, digit d2 with
        | Some a, Some b, Some c, Some d, Some e, Some f, Some g, Some h =>
            Some (1000 * a + 100 * b + 10 * c + d, 10 * e + f, 10 * g + h)
        | _, _, _, _, _, _, _, _ => None
        end
      else None
  | _ => None
  end.

(** Days of month [m] (1 = January) of year [y]. *)
Definition DaysInMonth (y m : Z) : Z :=
  MonthStart (LeapDays y) m - MonthStart (LeapDays y) (m - 1).

(** [new Date(dateStr + "T00:00:00Z")]: the date-time format of the
    language, read in UTC. A string that is not in that format, or whose
    month or day is out of range, gives the invalid date (engines differ on
    a day past the end of its month; the add flow stores no such string). *)
Definition parseUTCMidnight (dateStr : string) : Date :=
  match dateFields dateStr with
  | Some (y, m, d) =>
      if (1 <=? m) && (m <=? 12) && (1 <=? d) && (d <=? DaysInMonth y m)
      then TimeClip (MakeDate (MakeDay y (m - 1) d) (MakeTime 0 0 0 0))
      else None
  | None => None
  end.

(** [d.toISOString()] on a valid date. *)
Definition toISOString (t : Z) : string :=
  let y := YearFromTime t in
  let year :=
    if (0 <=? y) && (y <=? 9999) then pad 4 y
    else (if y <? 0 then "-" else "+") +:+ pad 6 (Z.abs y) in
  year +:+ "-" +:+ pad 2 (MonthFromTime t + 1) +:+ "-" +:+ pad 2 (DateFromTime t)
    +:+ "T" +:+ pad 2 (HourFromTime t) +:+ ":" +:+ pad 2 (MinFromTime t)
    +:+ ":" +:+ pad 2 (SecFromTime t) +:+ "." +:+ pad 3 (msFromTime t) +:+ "Z".

(** [a <= b] on two dates: the comparison of their time values, false when
    either is [NaN]. *)
Definition date_le (a b : Date) : bool :=
  match a, b with
  | Some x, Some y => x <=? y
  | _, _ => false
  end.

End JS.

Import JS.

(** Values of the language that the model passes in from outside:
    [Number] applied to a string, and [JSON.parse] ([None]: it throws). *)
#[warnings="-register-all"]
Inductive JSValue : Type :=
| JNumber (n : number)
| JArray (l : list JSValue)
| JOther.

Class Builtins : Type := {
  Number : string -> number;
  JSON_parse : string -> option JSValue;
}.

(* ================================================================= *)
(** * Data model                                                      *)
(* ================================================================= *)

(** [services/storage.ts]: [Visa]. Numbers that reach storage are finite. *)
Record Visa : Type := {
  id : string;
  countryCode : string;
  visaLabel : string;
  entryDate : string;
  durationDays : Q;
  createdAt : string;
  notificationIds : option (list string);
}.

(** [services/settings.ts]: [ReminderSettings]. [hour] and [minute] are
    results of [clampInt]; every entry of [offsetsDays] has passed
    [Number.isFinite]. *)
Record ReminderSettings : Type := {
  enabled : bool;
  hour : Z;
  minute : Z;
  offsetsDays : list Q;
}.

Definition DEFAULTS : ReminderSettings :=
  {| enabled := true; hour := 9; minute := 0; offsetsDays := [14; 7; 3; 0]%Q |}.

Definition KEY_NOTIF_ENABLED : string := "notif_enabled".
Definition KEY_REMINDER_HOUR : string := "reminder_hour".
Definition KEY_REMINDER_MIN : string := "reminder_min".
Definition KEY_REMINDER_OFFSETS : string := "reminder_offsets_days".

(** AsyncStorage: string keys to string values. The entry under ["visas"]
    is kept decoded, as the list that [JSON.parse] gives back from what
    [JSON.stringify] wrote. *)
Record AsyncStorage : Type := {
  items : gmap string string;
  visas : option (list Visa);
}.

(* ================================================================= *)
(** * Effects                                                         *)
(* ================================================================= *)

(** The body of a reminder: [`Your ${cc} visa expires today.`] or
    [`Your ${cc} visa expires in ${d} day(s).`]. *)
Inductive Body : Type :=
| ExpiresToday (cc : string)
| ExpiresIn (cc : string) (d : Q).

Record NotificationRequest : Type := {
  title : string;
  body : Body;
  date : Date;
}.

(** What the code asks of its collaborators, in the order asked. *)
Inductive Event : Type :=
| Alert (heading message : string)
| GetPermissions
| RequestPermissions
| Schedule (req : NotificationRequest)
| Cancel (handle : string)
| Navigate (path : string)
| SetSaving (b : bool)
| SetVisas (l : list Visa).

(** A thrown value, by its [message] if it has one. *)
Record Error : Type := { message : option string }.

Inductive Completion (A : Type) : Type :=
| Normal (a : A)
| Throw (e : Error).
Arguments Normal {A} a.
Arguments Throw {A} e.

(** The device: platform, time zone, clock, and the answers of the
    notification subsystem. The [k]-th reading of the clock is [clock k];
    a schedule or cancel request resolves or rejects as the subsystem
    decides, given everything asked so far. *)
Record Device : Type := {
  web : bool;
  LocalTZA : Z;
  clock : nat -> Z;
  granted : bool;
  grantedOnRequest : bool;
  scheduleNotificationAsync : list Event -> NotificationRequest -> Completion string;
  cancelScheduledNotificationAsync : list Event -> string -> Completion unit;
}.

Record World : Type := {
  storage : AsyncStorage;
  ticks : nat;
  log : list Event;
}.

(** An asynchronous function: it runs to a normal or abrupt completion
    and leaves a new world. Storage reads and writes always succeed. *)
Definition Async (A : Type) : Type := World -> Completion A * World.

Definition Async_ret {A} (a : A) : Async A := fun w => (Normal a, w).

Definition Async_bind {A B} (f : A -> Async B) (m : Async A) : Async B :=
  fun w =>
    match m w with
    | (Normal a, w') => f a w'
    | (Throw e, w') => (Throw e, w')
    end.

#[export] Instance Async_mret : MRet Async := @Async_ret.
#[export] Instance Async_mbind : MBind Async := @Async_bind.

(** [try { m } catch (e) { h e }] *)
Definition try_catch {A} (m : Async A) (h : Error -> Async A) : Async A :=
  fun w =>
    match m w with
    | (Normal a, w') => (Normal a, w')
    | (Throw e, w') => h e w'
    end.

(** [try { m } finally { f }], for an [f] that completes normally. *)
Definition finally {A} (m : Async A) (f : Async unit) : Async A :=
  fun w =>
    match m w with
    | (r, w') =>
        match f w' with
        | (Normal _, w'') => (r, w'')
        | (Throw e, w'') => (Throw e, w'')
        end
    end.

(** The completion of an awaited promise. *)
Definition settle {A} (r : Completion A) : Async A := fun w => (r, w).

Definition emit (e : Event) : Async unit :=
  fun w => (Normal tt, {| storage := storage w; ticks := ticks w; log := log w ++ [e] |}).

(** [Date.now()], [new Date()] *)
Definition now (dev : Device) : Async Z :=
  fun w => (Normal (clock dev (ticks w)),
            {| storage := storage w; ticks := S (ticks w); log := log w |}).

Definition getItem (key : string) : Async (option string) :=
  fun w => (Normal (items (storage w) !! key), w).

Definition setItem (key value : string) : Async unit :=
  fun w => (Normal tt,
            {| storage := {| items := <[key := value]> (items (storage w));
                             visas := visas (storage w) |};
               ticks := ticks w; log := log w |}).

Definition removeItem (key : string) : Async unit :=
  fun w => (Normal tt,
            {| storage := {| items := delete key (items (storage w));
                             visas := visas (storage w) |};
               ticks := ticks w; log := log w |}).

Definition alert (heading msg : string) : Async unit := emit (Alert heading msg).

(* ================================================================= *)
(** * services/storage.ts                                             *)
(* ================================================================= *)

Definition getVisas : Async (list Visa) :=
  fun w => (Normal (default [] (visas (storage w))), w).

Definition writeVisas (l : list Visa) : Async unit :=
  fun w => (Normal tt,
            {| storage := {| items := items (storage w); visas := Some l |};
               ticks := ticks w; log := log w |}).

Definition saveVisa (v : Visa) : Async unit :=
  l ← getVisas;
  writeVisas (l ++ [v]).

Definition clearVisas : Async unit :=
  fun w => (Normal tt,
            {| storage := {| items := items (storage w); visas := None |};
               ticks := ticks w; log := log w |}).

Definition deleteVisa (i : string) : Async unit :=
  l ← getVisas;
  let next := List.filter (fun v => negb (String.eqb (id v) i)) l in
  writeVisas next.

(* ================================================================= *)
(** * services/settings.ts                                            *)
(* ================================================================= *)

Definition clampInt (n : number) (min max fallback : Z) : Z :=
  match n with
  | Fin q =>
      let x := floor q in
      if x <? min then min
      else if x >? max then max
      else x
  | _ => fallback
  end.

Section Settings.
Context `{Builtins}.

Definition inRange (x : Q) : bool := Qle_bool 0 x && Qle_bool x 365.

(** The offsets read back from a parsed value: an array whose every entry
    is a finite number, filtered to [0..365]; anything else leaves the
    defaults. *)
Definition offsetsOf (parsed : JSValue) : list Q :=
  match parsed with
  | JArray l =>
      if forallb (fun x => match x with JNumber n => isFinite n | _ => false end) l
      then List.filter inRange
             (flat_map (fun x => match x with JNumber (Fin q) => [q] | _ => [] end) l)
      else offsetsDays DEFAULTS
  | _ => offsetsDays DEFAULTS
  end.

Definition getReminderSettings : Async ReminderSettings :=
  enabledStr ← getItem KEY_NOTIF_ENABLED;
  hourStr ← getItem KEY_REMINDER_HOUR;
  minStr ← getItem KEY_REMINDER_MIN;
  offsetsStr ← getItem KEY_REMINDER_OFFSETS;
  let enabled :=
    match enabledStr with
    | None => enabled DEFAULTS
    | Some s => String.eqb s "1"
    end in
  let hour :=
    match hourStr with
    | None => hour DEFAULTS
    | Some s => clampInt (Number s) 0 23 (hour DEFAULTS)
    end in
  let minute :=
    match minStr with
    | None => minute DEFAULTS
    | Some s => clampInt (Number s) 0 59 (minute DEFAULTS)
    end in
  let offsetsDays :=
    match offsetsStr with
    | None | Some EmptyString => offsetsDays DEFAULTS
    | Some s =>
        match JSON_parse s with
        | Some parsed => offsetsOf parsed
        | None => offsetsDays DEFAULTS
        end
    end in
  mret {| enabled := enabled; hour := hour; minute := minute;
          offsetsDays := offsetsDays |}.

End Settings.

Definition setReminderEnabled (enabled : bool) : Async unit :=
  setItem KEY_NOTIF_ENABLED (if enabled then "1" else "0").

Definition setReminderTime (hourArg minuteArg : number) : Async unit :=
  let h := clampInt hourArg 0 23 (hour DEFAULTS) in
  let m := clampInt minuteArg 0 59 (minute DEFAULTS) in
  setItem KEY_REMINDER_HOUR (pretty h);;
  setItem KEY_REMINDER_MIN (pretty m).

Definition resetAllSettings : Async unit :=
  removeItem KEY_NOTIF_ENABLED;;
  removeItem KEY_REMINDER_HOUR;;
  removeItem KEY_REMINDER_MIN;;
  removeItem KEY_REMINDER_OFFSETS.

(* ================================================================= *)
(** * services/notifications.ts                                       *)
(* ================================================================= *)

Definition ensureNotifPermission (dev : Device) : Async bool :=
  if web dev then mret false
  else
    emit GetPermissions;;
    if granted dev then mret true
    else
      emit RequestPermissions;;
      mret (grantedOnRequest dev).

(** [Notifications.scheduleNotificationAsync]: the request is issued, and
    resolves with a handle or rejects. *)
Definition requestSchedule (dev : Device) (req : NotificationRequest) : Async string :=
  fun w => (scheduleNotificationAsync dev (log w) req,
            {| storage := storage w; ticks := ticks w; log := log w ++ [Schedule req] |}).

Definition scheduleVisaReminder (dev : Device) (params : NotificationRequest)
  : Async (option string) :=
  if web dev then mret None
  else
    t ← now dev;
    if date_le (date params) (Some t) then mret None
    else
      i ← requestSchedule dev params;
      mret (Some i).



(* ================================================================= *)
(** * app/add.tsx: the add flow                                       *)
(* ================================================================= *)

Definition addDaysUTC (dateStr : string) (days : Q) : Date :=
  match parseUTCMidnight dateStr with
  | Some t => setUTCDate t (inject_Z (DateFromTime t) + days)%Q
  | None => None
  end.

(** [new Date(dateUTC)] copies the time value; [setHours] then sets the
    wall-clock time on the local day of that instant. *)
Definition atLocalTime (tza : Z) (dateUTC : Date) (hour minute : Z) : Date :=
  match dateUTC with
  | Some t => setHours tza t hour minute 0 0
  | None => None
  end.

Definition isValidDateYYYYMMDD (tza : Z) (s : string) : bool :=
  match dateFields s with
  | None => false
  | Some (y, m, d) =>
      match Date_local tza y (m - 1) d with
      | Some tv =>
          let lt := LocalTime tza tv in
          (YearFromTime lt =? y) && (MonthFromTime lt =? m - 1) && (DateFromTime lt =? d)
      | None => false
      end
  end.

(** The state of the form: what the four inputs hold. *)
Module AddVisa.
Record state : Type := {
  countryCode : string;
  visaLabel : string;
  entryDate : string;
  durationDays : string;
}.
End AddVisa.

(** The guard clauses at the head of [onSave]: an alert, or the
    normalised country code, label and duration. *)
Inductive Validation : Type :=
| Rejected (heading msg : string)
| Accepted (cc label : string) (days : Q).

Definition withNotificationIds (v : Visa) (ids : list string) : Visa :=
  {| id := id v; countryCode := countryCode v; visaLabel := visaLabel v;
     entryDate := entryDate v; durationDays := durationDays v;
     createdAt := createdAt v; notificationIds := Some ids |}.

Section AddScreen.
Context `{Builtins}.
Variable dev : Device.

Definition validate (form : AddVisa.state) : Validation :=
  let cc := toUpperCase (trim (AddVisa.countryCode form)) in
  let label := trim (AddVisa.visaLabel form) in
  let dd := trim (AddVisa.durationDays form) in
  if negb (Nat.eqb (String.length cc) 2) then
    Rejected "Invalid country code" "Use a 2-letter code like VN, TH, JP."
  else if String.eqb label EmptyString then
    Rejected "Missing visa label" "Example: Tourist, Business, Student."
  else if negb (isValidDateYYYYMMDD (LocalTZA dev) (AddVisa.entryDate form)) then
    Rejected "Invalid entry date" "Use format YYYY-MM-DD (example: 2026-01-14)."
  else
    match Number dd with
    | Fin days =>
        if Qlt_bool days 1 || Qlt_bool 365 days then
          Rejected "Invalid duration" "Duration must be between 1 and 365 days."
        else Accepted cc label days
    | _ => Rejected "Invalid duration" "Duration must be between 1 and 365 days."
    end.

(** The body of the loop over [remindDays]: the instant handed to the
    notification service for offset [d]. *)
Definition fireLocal (reminderSettings : ReminderSettings) (expiryUTC : Date) (d : Q)
  : Date :=
  let fireUTC :=
    match expiryUTC with
    | Some t => setUTCDate t (inject_Z (DateFromTime t) - d)%Q
    | None => None
    end in
  atLocalTime (LocalTZA dev) fireUTC (hour reminderSettings) (minute reminderSettings).

Definition reminder (cc : string) (reminderSettings : ReminderSettings)
    (expiryUTC : Date) (d : Q) : NotificationRequest :=
  {| title := "Visa reminder";
     body := if Qeq_bool d 0 then ExpiresToday cc else ExpiresIn cc d;
     date := fireLocal reminderSettings expiryUTC d |}.

(** [if (id) scheduledIds.push(id)]: a handle is kept when it is a
    non-empty string. *)
Definition push (scheduledIds : list string) (i : option string) : list string :=
  match i with
  | Some (String c r) => scheduledIds ++ [String c r]
  | _ => scheduledIds
  end.

Fixpoint scheduleEach (cc : string) (reminderSettings : ReminderSettings)
    (expiryUTC : Date) (remindDays : list Q) (scheduledIds : list string)
  : Async (list string) :=
  match remindDays with
  | [] => mret scheduledIds
  | d :: rest =>
      i ← scheduleVisaReminder dev (reminder cc reminderSettings expiryUTC d);
      scheduleEach cc reminderSettings expiryUTC rest (push scheduledIds i)
  end.

(** The block "Schedule notifications (mobile only)" of [onSave]: the
    visa with the handles of the reminders that were scheduled. *)
Definition scheduleReminders (cc : string) (visa : Visa) : Async Visa :=
  if negb (web dev) then
    hasPerm ← ensureNotifPermission dev;
    if hasPerm : bool then
      reminderSettings ← getReminderSettings;
      let expiryUTC := addDaysUTC (entryDate visa) (durationDays visa) in
      let remindDays := offsetsDays reminderSettings in
      scheduledIds ← scheduleEach cc reminderSettings expiryUTC remindDays [];
      mret (withNotificationIds visa scheduledIds)
    else mret visa
  else mret visa.

(** The [try] block of [onSave]. *)
Definition trySave (cc : string) (visa : Visa) : Async unit :=
  emit (SetSaving true);;
  v ← scheduleReminders cc visa;
  saveVisa v;;
  emit (Navigate "/").

(** The record [onSave] builds before it schedules anything: [t] and
    [created] are the two readings of the clock. *)
Definition draft (form : AddVisa.state) (cc label : string) (days : Q)
    (t created : Z) : Visa :=
  {| id := "visa_" +:+ pretty t;
     countryCode := cc;
     visaLabel := label;
     entryDate := AddVisa.entryDate form;
     durationDays := days;
     createdAt := toISOString created;
     notificationIds := Some [] |}.

Definition onSave (form : AddVisa.state) : Async unit :=
  match validate form with
  | Rejected heading msg => alert heading msg
  | Accepted cc label days =>
      t ← now dev;
      created ← now dev;
      let visa := draft form cc label days t created in
      finally
        (try_catch (trySave cc visa)
           (fun e => alert "Save failed" (default "Unknown error" (message e))))
        (emit (SetSaving false))
  end.

End AddScreen.

(* ================================================================= *)
(** * app/index.tsx: the home screen                                  *)
(* ================================================================= *)

Definition addDays (dateStr : string) (days : Q) : Date :=
  match parseUTCMidnight dateStr with
  | Some t => setUTCDate t (inject_Z (DateFromTime t) + days)%Q
  | None => None
  end.

(** The result is an integer, or [None] for [NaN]. *)
Definition daysBetweenUTC (a b : Date) : option Z :=
  match a, b with
  | Some ta, Some tb =>
      match Date_UTC (YearFromTime ta) (MonthFromTime ta) (DateFromTime ta),
            Date_UTC (YearFromTime tb) (MonthFromTime tb) (DateFromTime tb) with
      | Some a0, Some b0 => Some ((b0 - a0) / msPerDay)
      | _, _ => None
      end
  | _, _ => None
  end.

Definition computeCountdown (dev : Device) (v : Visa) : Async (Date * option Z) :=
  let expiry := addDays (entryDate v) (durationDays v) in
  today ← now dev;
  let daysRemaining := daysBetweenUTC (Some today) expiry in
  mret (expiry, daysRemaining).

(** [Visa & { expiryISO; daysRemaining }] *)
Record VisaCardItem : Type := {
  visa : Visa;
  expiryISO : string;
  daysRemaining : option Z;
}.

(** [x < k] and [x <= k] for a number that may be [NaN]. *)
Definition ltNum (x : option Z) (k : Z) : bool :=
  match x with Some z => z <? k | None => false end.
Definition leNum (x : option Z) (k : Z) : bool :=
  match x with Some z => z <=? k | None => false end.

Definition rank (x : VisaCardItem) : Z :=
  if ltNum (daysRemaining x) 0 then 0
  else if leNum (daysRemaining x) 6 then 1
  else if leNum (daysRemaining x) 14 then 2
  else 3.

Inductive Status : Type := expired | urgent | warning | safe.

Definition status (item : VisaCardItem) : Status :=
  let isExpired := ltNum (daysRemaining item) 0 in
  if isExpired then expired
  else if leNum (daysRemaining item) 6 then urgent
  else if leNum (daysRemaining item) 14 then warning
  else safe.

(** The comparator handed to [sort]; [None] is [NaN]. *)
Definition compareCards (a b : VisaCardItem) : option Z :=
  let ra := rank a in
  let rb := rank b in
  if negb (ra =? rb) then Some (ra - rb)
  else
    match daysRemaining a, daysRemaining b with
    | Some x, Some y => Some (x - y)
    | _, _ => None
    end.

(** [Array.prototype.sort] with a comparator: [a] goes after [b] when the
    comparator is positive on [(a, b)] ([NaN] counts as zero), and the sort
    is stable. For a consistent comparator that fixes the result, which
    insertion from the right computes. *)
Section Sort.
Context {A : Type} (comparefn : A -> A -> option Z).

Definition goesAfter (a b : A) : bool :=
  match comparefn a b with
  | Some v => 0 <? v
  | None => false
  end.

Fixpoint insert (x : A) (l : list A) : list A :=
  match l with
  | [] => [x]
  | y :: ys => if goesAfter x y then y :: insert x ys else x :: y :: ys
  end.

Fixpoint sort (l : list A) : list A :=
  match l with
  | [] => []
  | x :: xs => insert x (sort xs)
  end.

End Sort.

(** One element of [visas.map(...)]; [toISOString] throws a [RangeError]
    on an invalid expiry. *)
Definition withCountdown (dev : Device) (v : Visa) : Async VisaCardItem :=
  c ← computeCountdown dev v;
  match fst c with
  | Some t =>
      mret {| visa := v;
              expiryISO := String.substring 0 10 (toISOString t);
              daysRemaining := snd c |}
  | None => settle (Throw {| message := Some "Invalid time value" |})
  end.

Fixpoint mapAsync {A B} (f : A -> Async B) (l : list A) : Async (list B) :=
  match l with
  | [] => mret []
  | x :: xs =>
      y ← f x;
      ys ← mapAsync f xs;
      mret (y :: ys)
  end.

(** The list the home screen renders. *)
Definition data (dev : Device) (visas : list Visa) : Async (list VisaCardItem) :=
  items ← mapAsync (withCountdown dev) visas;
  mret (sort compareCards items).



(* ================================================================= *)
(** * The onboarding flag and the settings screen                     *)
(* ================================================================= *)

(** [services/settings.ts]: the onboarding flag. *)
Definition KEY_ONBOARDING_DONE : string := "onboarding_done".

Definition isOnboardingDone : Async bool :=
  v ← getItem KEY_ONBOARDING_DONE;
  mret (match v with Some s => String.eqb s "1" | None => false end).

Definition setOnboardingDone : Async unit := setItem KEY_ONBOARDING_DONE "1".

Definition clearOnboardingDone : Async unit := removeItem KEY_ONBOARDING_DONE.

(** [app/onboarding.tsx]: [finish]. *)
Definition finish : Async unit :=
  setOnboardingDone;;
  emit (Navigate "/").

(** [app/index.tsx]: the onboarding guard of the home screen. It resolves
    with the value [checkingOnboarding] is left with: [true] after the
    redirect, [false] once the flag is found. *)
Definition onboardingGuard : Async bool :=
  isDone ← isOnboardingDone;
  if isDone : bool then mret false
  else
    emit (Navigate "/onboarding");;
    mret true.

(** [app/settings.tsx]: [ensurePermission]. *)
Definition ensurePermission (dev : Device) : Async bool :=
  if web dev then mret false
  else
    emit GetPermissions;;
    if granted dev then mret true
    else
      emit RequestPermissions;;
      mret (grantedOnRequest dev).

(** [app/settings.tsx]: [onToggleEnabled]. The optimistic update of the
    screen's own state is not part of the world. *)
Definition onToggleEnabled (dev : Device) (next : bool) : Async unit :=
  setReminderEnabled next;;
  if next && negb (web dev) then
    ok ← ensurePermission dev;
    if ok : bool then mret tt
    else
      alert "Notifications not enabled"
        "Permission was not granted. You can enable notifications in your phone settings."
  else mret tt.

(* ================================================================= *)
(** * Worked examples: concrete builtins, devices and worlds          *)
(* ================================================================= *)

Fixpoint digitsValue (s : string) (acc : Z) : option Z :=
  match s with
  | EmptyString => Some acc
  | String c r =>
      match digit c with
      | Some v => digitsValue r (10 * acc + v)
      | None => None
      end
  end.

(** [Number] on the strings the examples use: white space around an
    empty string (zero) or around an optionally signed run of decimal
    digits. Other spellings of numbers are not used in the examples and
    are not recognised by this reader. *)
Definition NumberOfDigits (s : string) : number :=
  match trim s with
  | EmptyString => Fin 0
  | String "-" (String c r) =>
      match digitsValue (String c r) 0 with
      | Some v => Fin (inject_Z (- v))
      | None => NaN
      end
  | r =>
      match digitsValue r 0 with
      | Some v => Fin (inject_Z v)
      | None => NaN
      end
  end.

(** [JSON.parse] on the strings the examples use: an array of runs of
    decimal digits, as [JSON.stringify] writes an array of non-negative
    integers. *)
Fixpoint arrayItems (s : string) (cur : option Z) (acc : list JSValue)
  : option (list JSValue) :=
  match s with
  | EmptyString => None
  | String c r =>
      match digit c, cur with
      | Some v, Some n => arrayItems r (Some (10 * n + v)) acc
      | Some v, None => arrayItems r (Some v) acc
      | None, Some n =>
          if Ascii.eqb c "," then arrayItems r None (acc ++ [JNumber (Fin (inject_Z n))])
          else if Ascii.eqb c "]" then
            match r with
            | EmptyString => Some (acc ++ [JNumber (Fin (inject_Z n))])
            | _ => None
            end
          else None
      | None, None => None
      end
  end.

Definition parseDigitArray (s : string) : option JSValue :=
  match s with
  | String "[" (String "]" EmptyString) => Some (JArray [])
  | String "[" r => JArray <$> arrayItems r None []
  | _ => None
  end.

#[export] Instance ExampleBuiltins : Builtins :=
  {| Number := NumberOfDigits; JSON_parse := parseDigitArray |}.

(** 2026-01-01T00:00:00Z *)
Definition newYear2026 : Z := 1767225600000.

(** A phone [tzMinutes] east of UTC whose clock stands at [t]; permission
    is granted; every schedule request resolves with a fresh handle and
    every cancellation resolves. *)
Definition phone (tzMinutes t : Z) : Device :=
  {| web := false;
     LocalTZA := tzMinutes * msPerMinute;
     clock := fun _ => t;
     granted := true;
     grantedOnRequest := true;
     scheduleNotificationAsync :=
       fun asked _ => Normal ("n" +:+ pretty (Z.of_nat (length asked)));
     cancelScheduledNotificationAsync := fun _ _ => Normal tt |}.

(** The same phone when the notification subsystem rejects every schedule
    and every cancel request. *)
Definition failingPhone (tzMinutes t : Z) : Device :=
  {| web := false;
     LocalTZA := tzMinutes * msPerMinute;
     clock := fun _ => t;
     granted := true;
     grantedOnRequest := true;
     scheduleNotificationAsync :=
       fun _ _ => Throw {| message := Some "Failed to schedule" |};
     cancelScheduledNotificationAsync :=
       fun _ _ => Throw {| message := Some "Failed to cancel" |} |}.

Definition emptyWorld : World :=
  {| storage := {| items := ∅; visas := None |}; ticks := 0; log := [] |}.

Definition worldWith (kv : gmap string string) (l : option (list Visa)) : World :=
  {| storage := {| items := kv; visas := l |}; ticks := 0; log := [] |}.

Definition touristForm (cc entry days : string) : AddVisa.state :=
  {| AddVisa.countryCode := cc; AddVisa.visaLabel := "Tourist";
     AddVisa.entryDate := entry; AddVisa.durationDays := days |}.

(** Observations on a log. *)
Definition scheduled (l : list Event) : list NotificationRequest :=
  flat_map (fun e => match e with Schedule r => [r] | _ => [] end) l.


Definition alerts (l : list Event) : list (string * string) :=
  flat_map (fun e => match e with Alert h m => [(h, m)] | _ => [] end) l.

(** The wall clock of the device at an instant: year, month (1 = January),
    day, hour and minute, as [getFullYear], [getMonth() + 1], [getDate],
    [getHours] and [getMinutes] give them. *)
Definition wallClock (tza : Z) (d : Date) : option (Z * Z * Z * Z * Z) :=
  match d with
  | Some t =>
      let lt := LocalTime tza t in
      Some (YearFromTime lt, MonthFromTime lt + 1, DateFromTime lt,
            HourFromTime lt, MinFromTime lt)
  | None => None
  end.

(** The calendar day of a date in UTC: year, month (1 = January), day. *)
Definition calendarDay (d : Date) : option (Z * Z * Z) :=
  match d with
  | Some t => Some (YearFromTime t, MonthFromTime t + 1, DateFromTime t)
  | None => None
  end.

(* ================================================================= *)
(** * Vocabulary of the properties                                    *)
(* ================================================================= *)

(** Rank of a band in the canonical ordering. *)
Definition bandRank (s : Status) : Z :=
  match s with expired => 0 | urgent => 1 | warning => 2 | safe => 3 end.

(** A card whose countdown is the integer [n]. *)
Definition card (v : Visa) (iso : string) (n : Z) : VisaCardItem :=
  {| visa := v; expiryISO := iso; daysRemaining := Some n |}.

(** [a] may stand before [b]: lower rank first, then fewer days. *)
Definition cardLe (a b : VisaCardItem) : Prop :=
  exists x y, daysRemaining a = Some x /\ daysRemaining b = Some y /\
    (rank a < rank b \/ (rank a = rank b /\ x <= y)).

(** The cards of rank [r] with [d] days remaining. *)
Definition sameKey (r d : Z) (x : VisaCardItem) : bool :=
  (rank x =? r) && bool_decide (daysRemaining x = Some d).

Definition hasCountdown (x : VisaCardItem) : Prop := is_Some (daysRemaining x).

(** What [getReminderSettings] resolves with in world [w]. *)
Definition readSettings `{Builtins} (w : World) : ReminderSettings :=
  match getReminderSettings w with
  | (Normal s, _) => s
  | (Throw _, _) => DEFAULTS
  end.

(** The world one clock reading later, and the world after one more
    request. *)
Definition tick (w : World) : World :=
  {| storage := storage w; ticks := S (ticks w); log := log w |}.

Definition logged (l : list Event) (w : World) : World :=
  {| storage := storage w; ticks := ticks w; log := log w ++ l |}.

(** The stored list of visas. *)
Definition stored (w : World) : list Visa := default [] (visas (storage w)).

(** A stored visa for the scenarios. *)
Definition vietnam (handles : list string) : Visa :=
  {| id := "visa_1767225600000"; countryCode := "VN"; visaLabel := "Tourist";
     entryDate := "2026-01-01"; durationDays := 30;
     createdAt := "2026-01-01T00:00:00.000Z"; notificationIds := Some handles |}.

Definition visaOf (i entry : string) (days : Q) : Visa :=
  {| id := i; countryCode := "VN"; visaLabel := "Tourist";
     entryDate := entry; durationDays := days;
     createdAt := "2025-11-01T00:00:00.000Z"; notificationIds := Some [] |}.

(** Five visas as stored, seen on 2026-01-01: 30 days left, 8 days left,
    expired 31 days ago, and twice 5 days left. *)
Definition fiveVisas : list Visa :=
  [visaOf "a" "2026-01-01" 30; visaOf "b" "2025-12-10" 30;
   visaOf "c" "2025-11-01" 30; visaOf "d" "2025-12-07" 30;
   visaOf "e" "2025-12-07" 30].




Definition isLowerLetter (c : ascii) : bool := (97 <=? code c) && (code c <=? 122).

Definition permissionTraffic (l : list Event) : list Event :=
  List.filter (fun e => match e with GetPermissions | RequestPermissions => true
                                | _ => false end) l.

(** Proof steps used more than once: a year as a multiple of 400 plus a
    remainder, and the twelve months one by one. *)
Ltac split_year y :=
  let E := fresh "E" in
  let B := fresh "B" in
  let k := fresh "k" in
  let r := fresh "r" in
  pose proof (Z.div_mod y 400 ltac:(lia)) as E;
  pose proof (Z.mod_pos_bound y 400 ltac:(lia)) as B;
  set (k := y / 400) in *; set (r := y mod 400) in *; clearbody k r; subst y.

Ltac month_cases m :=
  let C := fresh "C" in
  assert (C : m = 0 \/ m = 1 \/ m = 2 \/ m = 3 \/ m = 4 \/ m = 5 \/ m = 6 \/ m = 7
              \/ m = 8 \/ m = 9 \/ m = 10 \/ m = 11) by lia;
  repeat destruct C as [C|C]; subst m.


(* ================================================================= *)
(** * Home screen: status bands and list order                        *)
(* ================================================================= *)

Lemma rank_card v iso n :
  rank (card v iso n) = if n <? 0 then 0 else if n <=? 6 then 1 else if n <=? 14 then 2 else 3.
Proof. reflexivity. Qed.

Lemma rank_bandRank x : rank x = bandRank (status x).
Proof.
  unfold rank, status. cbv zeta.
  destruct (ltNum (daysRemaining x) 0); [reflexivity|].
  destruct (leNum (daysRemaining x) 6); [reflexivity|].
  destruct (leNum (daysRemaining x) 14); reflexivity.
Qed.

(** C7. The band of a card follows the inclusive thresholds, for every
    signed number of days remaining: below 0 expired, 0 to 6 urgent, 7 to
    14 warning, above 14 safe; the six boundary values fall as listed. *)
Theorem status_bands (v : Visa) (iso : string) (n : Z) :
  (n < 0 -> status (card v iso n) = expired) /\
  (0 <= n <= 6 -> status (card v iso n) = urgent) /\
  (7 <= n <= 14 -> status (card v iso n) = warning) /\
  (14 < n -> status (card v iso n) = safe) /\
  status (card v iso (-1)) = expired /\
  status (card v iso 0) = urgent /\
  status (card v iso 6) = urgent /\
  status (card v iso 7) = warning /\
  status (card v iso 14) = warning /\
  status (card v iso 15) = safe.
Proof.
  assert (E : status (card v iso n)
              = if n <? 0 then expired else if n <=? 6 then urgent
                else if n <=? 14 then warning else safe) by reflexivity.
  repeat split; try reflexivity; intros Hn; rewrite E;
    repeat match goal with
    | |- context [?a <? ?b] => destruct (Z.ltb_spec a b); try lia
    | |- context [?a <=? ?b] => destruct (Z.leb_spec a b); try lia
    end; reflexivity.
Qed.

Section SortFacts.
Context {A : Type} (comparefn : A -> A -> option Z).

Lemma insert_perm x l : Permutation (insert comparefn x l) (x :: l).
Proof.
  induction l as [|y ys IH]; simpl; [reflexivity|].
  destruct (goesAfter comparefn x y); [|reflexivity].
  rewrite IH. apply perm_swap.
Qed.

Lemma sort_perm l : Permutation (sort comparefn l) l.
Proof.
  induction l as [|x xs IH]; simpl; [reflexivity|].
  rewrite insert_perm. now constructor.
Qed.

(** Insertion passes [x] only over elements it goes after; if none of those
    is selected by [p] when [x] is, the selected sublist keeps its order. *)
Lemma filter_insert (p : A -> bool) x l :
  (forall y, p x = true -> p y = true -> goesAfter comparefn x y = false) ->
  List.filter p (insert comparefn x l) = List.filter p (x :: l).
Proof.
  intros Hp. induction l as [|y ys IH]; [reflexivity|].
  simpl. destruct (goesAfter comparefn x y) eqn:Hg; [|reflexivity].
  simpl in *. rewrite IH.
  destruct (p x) eqn:Hx; [|reflexivity].
  destruct (p y) eqn:Hy; [|reflexivity].
  rewrite (Hp y eq_refl Hy) in Hg. discriminate.
Qed.

Lemma sort_stable (p : A -> bool) l :
  (forall x y, p x = true -> p y = true -> goesAfter comparefn x y = false) ->
  List.filter p (sort comparefn l) = List.filter p l.
Proof.
  intros Hp. induction l as [|x xs IH]; [reflexivity|].
  simpl sort. rewrite filter_insert by (intros y; apply Hp).
  simpl. now rewrite IH.
Qed.

Context (R : A -> A -> Prop) (P : A -> Prop).
Hypothesis R_trans : forall a b c, R a b -> R b c -> R a c.
Hypothesis R_before : forall a b, P a -> P b -> goesAfter comparefn a b = false -> R a b.
Hypothesis R_after : forall a b, P a -> P b -> goesAfter comparefn a b = true -> R b a.

Lemma insert_sorted x l :
  P x -> Forall P l -> StronglySorted R l -> StronglySorted R (insert comparefn x l).
Proof using R_trans R_before R_after.
  intros Px Pl Hs. induction Hs as [|y ys Hs IH Hy]; simpl.
  - repeat constructor.
  - inversion Pl as [|? ? Py Pys]; subst.
    destruct (goesAfter comparefn x y) eqn:Hg.
    + constructor; [now apply IH|].
      eapply Permutation_Forall; [symmetry; apply insert_perm|].
      constructor; [now apply R_after|assumption].
    + constructor; [now constructor|].
      constructor; [now apply R_before|].
      eapply Forall_impl; [exact Hy|]. intros z Hz. cbv beta in *.
      eapply R_trans; [apply R_before|]; eassumption.
Qed.

Lemma sort_sorted l : Forall P l -> StronglySorted R (sort comparefn l).
Proof using R_trans R_before R_after.
  induction 1 as [|x xs Px Pxs IH]; simpl; [constructor|].
  apply insert_sorted; [assumption| |assumption].
  eapply Permutation_Forall; [symmetry; apply sort_perm|assumption].
Qed.

End SortFacts.

Lemma cardLe_trans a b c : cardLe a b -> cardLe b c -> cardLe a c.
Proof.
  intros (x & y & Hx & Hy & H1) (y' & z & Hy' & Hz & H2).
  rewrite Hy in Hy'. injection Hy' as <-.
  exists x, z. repeat split; try assumption. lia.
Qed.

Lemma compareCards_before a b :
  hasCountdown a -> hasCountdown b -> goesAfter compareCards a b = false -> cardLe a b.
Proof.
  intros [x Hx] [y Hy]. unfold goesAfter, compareCards. cbv zeta.
  rewrite Hx, Hy. exists x, y. repeat split; try assumption.
  destruct (Z.eqb_spec (rank a) (rank b)); simpl in *;
    destruct (Z.ltb_spec 0 (rank a - rank b)); destruct (Z.ltb_spec 0 (x - y));
    try discriminate; lia.
Qed.

Lemma compareCards_after a b :
  hasCountdown a -> hasCountdown b -> goesAfter compareCards a b = true -> cardLe b a.
Proof.
  intros [x Hx] [y Hy]. unfold goesAfter, compareCards. cbv zeta.
  rewrite Hx, Hy. exists y, x. repeat split; try assumption.
  destruct (Z.eqb_spec (rank a) (rank b)); simpl in *;
    destruct (Z.ltb_spec 0 (rank a - rank b)); destruct (Z.ltb_spec 0 (x - y));
    try discriminate; lia.
Qed.

Lemma sameKey_tie r d a b :
  sameKey r d a = true -> sameKey r d b = true -> goesAfter compareCards a b = false.
Proof.
  unfold sameKey. intros [Ha Da]%andb_prop [Hb Db]%andb_prop.
  apply bool_decide_eq_true in Da, Db. apply Z.eqb_eq in Ha, Hb.
  unfold goesAfter, compareCards. cbv zeta.
  rewrite Da, Db, Ha, Hb, Z.eqb_refl. simpl.
  now rewrite Z.sub_diag.
Qed.

(** The sort puts cards in canonical order: a rearrangement, by rank then
    by days remaining, stable on ties; and the rank is the band's. *)
Lemma sort_cards_canonical (l : list VisaCardItem) :
  Forall hasCountdown l ->
  Permutation (sort compareCards l) l /\
  StronglySorted cardLe (sort compareCards l) /\
  (forall r d, List.filter (sameKey r d) (sort compareCards l)
               = List.filter (sameKey r d) l) /\
  (forall x, rank x = bandRank (status x)).
Proof.
  intros Hl. split; [apply sort_perm|]. split.
  - apply (sort_sorted compareCards cardLe hasCountdown);
      eauto using cardLe_trans, compareCards_before, compareCards_after.
  - split; [|apply rank_bandRank].
    intros r d. apply sort_stable. intros x y. apply sameKey_tie.
Qed.

(** C9. The list handed to the renderer is the input in canonical order:
    a rearrangement of the cards, by band rank ascending (expired 0,
    urgent 1, warning 2, safe 3), then by days remaining ascending, and
    cards with the same rank and the same days remaining keep the order
    they came in. *)
Theorem sort_is_canonical (l : list VisaCardItem) :
  Forall hasCountdown l ->
  Permutation (sort compareCards l) l /\
  StronglySorted cardLe (sort compareCards l) /\
  (forall r d, List.filter (sameKey r d) (sort compareCards l)
               = List.filter (sameKey r d) l) /\
  (forall x, rank x = bandRank (status x)).
Proof. exact (sort_cards_canonical l). Qed.

(* ================================================================= *)
(** * Calendar arithmetic                                             *)
(* ================================================================= *)

Lemma LeapDays_range y : 0 <= LeapDays y <= 1.
Proof. unfold LeapDays. destruct (_ || _); lia. Qed.

Lemma forallb_below (P : Z -> bool) (n : nat) :
  forallb P (map Z.of_nat (seq 0 n)) = true ->
  forall r, 0 <= r < Z.of_nat n -> P r = true.
Proof.
  intros Hall r Hr. rewrite forallb_forall in Hall. apply Hall.
  apply in_map_iff. exists (Z.to_nat r). split; [lia|].
  apply in_seq. lia.
Qed.

Lemma DayFromYear_400 y k : DayFromYear (y + 400 * k) = DayFromYear y + 146097 * k.
Proof. unfold DayFromYear. Z.div_mod_to_equations; lia. Qed.

Lemma LeapDays_400 y k : LeapDays (y + 400 * k) = LeapDays y.
Proof.
  unfold LeapDays.
  replace ((y + 400 * k) mod 4) with (y mod 4)
    by (replace (400 * k) with (100 * k * 4) by lia; now rewrite Z_mod_plus_full).
  replace ((y + 400 * k) mod 100) with (y mod 100)
    by (replace (400 * k) with (4 * k * 100) by lia; now rewrite Z_mod_plus_full).
  replace ((y + 400 * k) mod 400) with (y mod 400)
    by (replace (400 * k) with (k * 400) by lia; now rewrite Z_mod_plus_full).
  reflexivity.
Qed.

(** A year has 365 days and its leap day. The identity is periodic in the
    year with period 400, and is checked on one period. *)
Lemma DayFromYear_step y : DayFromYear (y + 1) = DayFromYear y + 365 + LeapDays y.
Proof.
  split_year y.
  replace (400 * k + r + 1) with (r + 1 + 400 * k) by lia.
  replace (400 * k + r) with (r + 400 * k) by lia.
  rewrite !DayFromYear_400, LeapDays_400.
  enough ((DayFromYear (r + 1) =? DayFromYear r + 365 + LeapDays r) = true) by lia.
  apply (forallb_below
           (fun r => DayFromYear (r + 1) =? DayFromYear r + 365 + LeapDays r) 400);
    [vm_compute; reflexivity|lia].
Qed.

Lemma DayFromYear_mono a b : a <= b -> DayFromYear a <= DayFromYear b.
Proof.
  intros Hab. replace b with (a + Z.of_nat (Z.to_nat (b - a))) by lia.
  induction (Z.to_nat (b - a)) as [|n IH]; [now rewrite Z.add_0_r|].
  replace (a + Z.of_nat (S n)) with (a + Z.of_nat n + 1) by lia.
  rewrite DayFromYear_step. pose proof (LeapDays_range (a + Z.of_nat n)). lia.
Qed.

Lemma YearFromDay_spec d :
  DayFromYear (YearFromDay d) <= d < DayFromYear (YearFromDay d + 1).
Proof.
  unfold YearFromDay. cbv zeta.
  set (y0 := 1970 + 400 * d / 146097).
  assert (Hy : DayFromYear (y0 - 1) <= d < DayFromYear (y0 + 2)).
  { subst y0. unfold DayFromYear.
    pose proof (Z.div_mod d 146097 ltac:(lia)) as E.
    pose proof (Z.mod_pos_bound d 146097 ltac:(lia)) as B.
    set (k := d / 146097) in *. set (r := d mod 146097) in *. clearbody k r. subst d.
    Z.div_mod_to_equations; lia. }
  destruct (Z.ltb_spec d (DayFromYear y0)).
  - replace (y0 - 1 + 1) with y0 by lia. lia.
  - destruct (Z.leb_spec (DayFromYear (y0 + 1)) d).
    + replace (y0 + 1 + 1) with (y0 + 2) by lia. lia.
    + lia.
Qed.

Lemma YearFromDay_ge a d : DayFromYear a <= d -> a <= YearFromDay d.
Proof.
  intros Ha. destruct (Z.le_gt_cases a (YearFromDay d)) as [|Hlt]; [assumption|].
  pose proof (YearFromDay_spec d) as [_ Hs].
  pose proof (DayFromYear_mono (YearFromDay d + 1) a ltac:(lia)). lia.
Qed.

Lemma YearFromDay_unique y d :
  DayFromYear y <= d < DayFromYear (y + 1) -> YearFromDay d = y.
Proof.
  intros [Hl Hu]. pose proof (YearFromDay_ge y d Hl).
  destruct (Z.eq_dec (YearFromDay d) y) as [|Hne]; [assumption|].
  pose proof (YearFromDay_spec d) as [Hs _].
  pose proof (DayFromYear_mono (y + 1) (YearFromDay d) ltac:(lia)). lia.
Qed.

Lemma MonthFromTime_range t : 0 <= MonthFromTime t <= 11.
Proof.
  unfold MonthFromTime. cbv zeta.
  repeat match goal with |- context [?a <? ?b] => destruct (a <? b) end; lia.
Qed.

(** The fields of a time value name its day: [MakeDay] gives it back, and
    is linear in the day of the month. *)
Lemma MakeDay_fields t k :
  MakeDay (YearFromTime t) (MonthFromTime t) (DateFromTime t + k) = Day t + k.
Proof.
  pose proof (MonthFromTime_range t) as Hm.
  unfold MakeDay. cbv zeta.
  rewrite (Z.div_small (MonthFromTime t) 12), (Z.mod_small (MonthFromTime t) 12) by lia.
  rewrite Z.add_0_r. unfold DateFromTime, DayWithinYear, InLeapYear. lia.
Qed.

Lemma Day_MakeDate d : Day (MakeDate d 0) = d.
Proof. unfold Day, MakeDate, msPerDay. rewrite Z.add_0_r. now apply Z.div_mul. Qed.

Lemma TimeWithinDay_MakeDate d : TimeWithinDay (MakeDate d 0) = 0.
Proof. unfold TimeWithinDay, MakeDate, msPerDay. rewrite Z.add_0_r. now apply Z.mod_mul. Qed.

Lemma TimeClip_Some z t : TimeClip z = Some t -> t = z.
Proof. unfold TimeClip. destruct (_ >? _); congruence. Qed.

Lemma TimeClip_days d :
  -100000000 <= d <= 100000000 -> TimeClip (MakeDate d 0) = Some (MakeDate d 0).
Proof.
  intros Hd. unfold TimeClip, MakeDate, msPerDay.
  destruct (Z.gtb_spec (Z.abs (d * 86400000 + 0)) 8640000000000000); [lia|reflexivity].
Qed.

Lemma ToIntegerOrInfinity_sum a n :
  ToIntegerOrInfinity (inject_Z a + inject_Z n)%Q = a + n.
Proof. unfold ToIntegerOrInfinity. simpl. rewrite Z.quot_1_r. lia. Qed.

Lemma digit_range c v : digit c = Some v -> 0 <= v <= 9.
Proof.
  unfold digit. destruct (Z.leb_spec 48 (code c)), (Z.leb_spec (code c) 57);
    simpl; intros [= <-]; lia.
Qed.

Lemma dateFields_range s y m d :
  dateFields s = Some (y, m, d) -> 0 <= y <= 9999 /\ 0 <= m <= 99 /\ 0 <= d <= 99.
Proof.
  unfold dateFields.
  destruct (String.list_ascii_of_string s) as [|y1 [|y2 [|y3 [|y4 [|h1 [|m1 [|m2 [|h2 [|d1 [|d2 [|]]]]]]]]]]];
    try discriminate.
  destruct (_ && _); [|discriminate].
  destruct (digit y1) eqn:E1; [|discriminate].
  destruct (digit y2) eqn:E2; [|discriminate].
  destruct (digit y3) eqn:E3; [|discriminate].
  destruct (digit y4) eqn:E4; [|discriminate].
  destruct (digit m1) eqn:E5; [|discriminate].
  destruct (digit m2) eqn:E6; [|discriminate].
  destruct (digit d1) eqn:E7; [|discriminate].
  destruct (digit d2) eqn:E8; [|discriminate].
  intros [= <- <- <-].
  apply digit_range in E1, E2, E3, E4, E5, E6, E7, E8. lia.
Qed.

Lemma MonthStart_range l m : 0 <= l <= 1 -> 0 <= m <= 11 -> 0 <= MonthStart l m <= 335.
Proof. intros Hl Hm. month_cases m; simpl; lia. Qed.

Lemma MakeDay_small year month date :
  0 <= month <= 11 ->
  MakeDay year month date = DayFromYear year + MonthStart (LeapDays year) month + date - 1.
Proof.
  intros Hm. unfold MakeDay. cbv zeta.
  now rewrite (Z.div_small month 12), (Z.mod_small month 12), Z.add_0_r by lia.
Qed.

(** What the validator of the add flow accepts reads, in UTC, as the
    midnight that opens a day of the years 100 to 9999. *)
Lemma valid_entry tza s :
  isValidDateYYYYMMDD tza s = true ->
  exists t, parseUTCMidnight s = Some t /\ TimeWithinDay t = 0 /\
            DayFromYear 100 <= Day t <= 3000000.
Proof.
  unfold isValidDateYYYYMMDD, parseUTCMidnight.
  destruct (dateFields s) as [[[y m] d]|] eqn:Hf; [|discriminate].
  destruct (dateFields_range _ _ _ _ Hf) as (Hy & Hm & Hd).
  unfold Date_local. destruct (TimeClip _) as [tv|] eqn:Hc; [|discriminate].
  apply TimeClip_Some in Hc. subst tv.
  change (MakeTime 0 0 0 0) with 0.
  unfold LocalTime, UTC.
  set (X := MakeDate (MakeDay (MakeFullYear y) (m - 1) d) 0).
  replace (X - tza + tza) with X by lia.
  intros [[HY HM]%andb_prop HD]%andb_prop.
  apply Z.eqb_eq in HY, HM, HD.
  pose proof (MonthFromTime_range X) as Hmr. rewrite HM in Hmr.
  assert (Hfull : MakeFullYear y = y).
  { unfold MakeFullYear.
    destruct (Z.leb_spec 0 y); [|reflexivity].
    destruct (Z.leb_spec y 99); [|reflexivity]. exfalso.
    assert (Hge : 1898 + y <= YearFromTime X).
    { unfold YearFromTime. subst X. rewrite Day_MakeDate.
      apply YearFromDay_ge. unfold MakeFullYear.
      destruct (Z.leb_spec 0 y); [|lia]. destruct (Z.leb_spec y 99); [|lia].
      simpl andb. cbv iota. rewrite MakeDay_small by lia.
      pose proof (MonthStart_range (LeapDays (1900 + y)) (m - 1)
                    (LeapDays_range _) ltac:(lia)).
      pose proof (DayFromYear_mono (1898 + y + 1) (1900 + y) ltac:(lia)).
      pose proof (DayFromYear_step (1898 + y)).
      pose proof (LeapDays_range (1898 + y)). lia. }
    lia. }
  subst X. rewrite Hfull in *. rewrite MakeDay_small in * by lia.
  set (l := LeapDays y) in *. pose proof (LeapDays_range y) as Hl. fold l in Hl.
  set (D := DayFromYear y + MonthStart l (m - 1) + d - 1) in *.
  unfold YearFromTime in HY. rewrite Day_MakeDate in HY.
  pose proof (YearFromDay_spec D) as Hspec. rewrite HY, DayFromYear_step in Hspec.
  fold l in Hspec.
  assert (Hw : DayWithinYear (MakeDate D 0) = D - DayFromYear y).
  { unfold DayWithinYear, YearFromTime. now rewrite Day_MakeDate, HY. }
  assert (Hil : InLeapYear (MakeDate D 0) = l).
  { unfold InLeapYear, YearFromTime. now rewrite Day_MakeDate, HY. }
  assert (Hdm : 1 <= d <= DaysInMonth y m).
  { unfold DaysInMonth. fold l.
    unfold MonthFromTime in HM. cbv zeta in HM. rewrite Hw, Hil in HM.
    subst D.
    assert (Cm : m = 1 \/ m = 2 \/ m = 3 \/ m = 4 \/ m = 5 \/ m = 6 \/ m = 7
                 \/ m = 8 \/ m = 9 \/ m = 10 \/ m = 11 \/ m = 12) by lia.
    repeat destruct Cm as [Cm|Cm]; subst m; simpl in *;
      repeat match type of HM with
             | context [?a <? ?b] => destruct (Z.ltb_spec a b)
             end; lia. }
  assert (HyY : 100 <= y).
  { destruct (Z.le_gt_cases 100 y); [assumption|].
    unfold MakeFullYear in Hfull.
    destruct (Z.leb_spec 0 y); [|lia]. destruct (Z.leb_spec y 99); [|lia].
    simpl in Hfull. lia. }
  assert (Hcond : (1 <=? m) && (m <=? 12) && (1 <=? d) && (d <=? DaysInMonth y m) = true).
  { repeat (apply andb_true_intro; split); apply Z.leb_le; lia. }
  rewrite Hcond.
  pose proof (MonthStart_range l (m - 1) Hl ltac:(lia)) as Hms.
  pose proof (DayFromYear_mono 100 y HyY) as Hlo.
  pose proof (DayFromYear_mono y 9999 ltac:(lia)) as Hhi.
  change (DayFromYear 9999) with 2932532 in Hhi.
  assert (HD100 : DayFromYear 100 = -683003) by reflexivity.
  exists (MakeDate D 0). rewrite Day_MakeDate, TimeWithinDay_MakeDate.
  split; [apply TimeClip_days; subst D; lia|].
  split; [reflexivity|]. subst D. lia.
Qed.

Lemma addDays_days s t n :
  parseUTCMidnight s = Some t -> TimeWithinDay t = 0 ->
  addDays s (inject_Z n) = TimeClip (MakeDate (Day t + n) 0).
Proof.
  intros Hp Ht. unfold addDays, setUTCDate. rewrite Hp, Ht.
  now rewrite ToIntegerOrInfinity_sum, MakeDay_fields.
Qed.

Lemma Date_UTC_fields t :
  ~ (0 <= YearFromTime t <= 99) ->
  Date_UTC (YearFromTime t) (MonthFromTime t) (DateFromTime t)
  = TimeClip (MakeDate (Day t) 0).
Proof.
  intros Hy. unfold Date_UTC, MakeFullYear.
  replace ((0 <=? YearFromTime t) && (YearFromTime t <=? 99)) with false.
  - pose proof (MakeDay_fields t 0) as E. rewrite !Z.add_0_r in E.
    now rewrite E.
  - destruct (Z.leb_spec 0 (YearFromTime t)), (Z.leb_spec (YearFromTime t) 99);
      simpl; try reflexivity; lia.
Qed.

Lemma days_apart a b : (MakeDate b 0 - MakeDate a 0) / msPerDay = b - a.
Proof.
  unfold MakeDate, msPerDay.
  replace (b * 86400000 + 0 - (a * 86400000 + 0)) with ((b - a) * 86400000) by lia.
  now apply Z.div_mul.
Qed.

(** C8, as amended. For an entry date the add flow accepts and a whole
    number of days [n], the day difference between the entry date and the
    entry date plus [n] days is [n], for every [n] from 0 to 97,000,000
    (so for every duration 1 to 365), and more generally whenever the sum is
    a valid date outside the years 0 to 99. *)
Theorem daysBetween_addDays (tza : Z) (entry : string) (n : Z) :
  isValidDateYYYYMMDD tza entry = true ->
  (0 <= n <= 97000000 ->
   daysBetweenUTC (parseUTCMidnight entry) (addDays entry (inject_Z n)) = Some n) /\
  (forall t, addDays entry (inject_Z n) = Some t ->
             ~ (0 <= YearFromTime t <= 99) ->
   daysBetweenUTC (parseUTCMidnight entry) (addDays entry (inject_Z n)) = Some n).
Proof.
  intros Hv. destruct (valid_entry _ _ Hv) as (t0 & Hp & Ht0 & Hlo & Hhi).
  assert (HD100 : DayFromYear 100 = -683003) by reflexivity.
  assert (Ha0 : Date_UTC (YearFromTime t0) (MonthFromTime t0) (DateFromTime t0)
                = Some (MakeDate (Day t0) 0)).
  { rewrite Date_UTC_fields.
    - apply TimeClip_days. lia.
    - pose proof (YearFromDay_ge 100 (Day t0) Hlo). unfold YearFromTime. lia. }
  assert (Hgen : forall t, addDays entry (inject_Z n) = Some t ->
                 ~ (0 <= YearFromTime t <= 99) ->
                 daysBetweenUTC (parseUTCMidnight entry) (addDays entry (inject_Z n))
                 = Some n).
  { intros t Ht Hy. rewrite Ht, Hp. unfold daysBetweenUTC. rewrite Ha0.
    rewrite (addDays_days _ _ _ Hp Ht0) in Ht.
    pose proof (TimeClip_Some _ _ Ht) as Et.
    rewrite Date_UTC_fields by assumption.
    rewrite Et at 1. rewrite Day_MakeDate, Ht, Et, days_apart.
    f_equal. lia. }
  split; [|exact Hgen].
  intros Hn.
  assert (Ht : addDays entry (inject_Z n) = Some (MakeDate (Day t0 + n) 0)).
  { rewrite (addDays_days _ _ _ Hp Ht0). apply TimeClip_days. lia. }
  apply (Hgen _ Ht).
  unfold YearFromTime. rewrite Day_MakeDate.
  pose proof (YearFromDay_ge 100 (Day t0 + n) ltac:(lia)). lia.
Qed.

(* ================================================================= *)
(** * The rendered list                                               *)
(* ================================================================= *)

Lemma DayWithinYear_range t : 0 <= DayWithinYear t < 365 + InLeapYear t.
Proof.
  unfold DayWithinYear, InLeapYear, YearFromTime.
  pose proof (YearFromDay_spec (Day t)) as Hs.
  rewrite DayFromYear_step in Hs. lia.
Qed.

Lemma DateFromTime_range t : 1 <= DateFromTime t <= 31.
Proof.
  pose proof (DayWithinYear_range t) as Hw.
  pose proof (LeapDays_range (YearFromTime t)) as Hl. fold (InLeapYear t) in Hl.
  unfold DateFromTime, MonthFromTime. cbv zeta.
  repeat match goal with
         | |- context [?a <? ?b] => destruct (Z.ltb_spec a b)
         end; simpl MonthStart; lia.
Qed.

Lemma TimeClip_bound z t : TimeClip z = Some t -> Z.abs t <= 8640000000000000.
Proof.
  unfold TimeClip. destruct (Z.gtb_spec (Z.abs z) 8640000000000000); [discriminate|].
  intros [= <-]. assumption.
Qed.

(** [Date.UTC] of the fields of a valid date is a time value. *)
Lemma Date_UTC_valid t :
  Z.abs t <= 8640000000000000 ->
  is_Some (Date_UTC (YearFromTime t) (MonthFromTime t) (DateFromTime t)).
Proof.
  intros Ht.
  destruct (Z.le_gt_cases 0 (YearFromTime t)) as [H0|H0];
    [destruct (Z.le_gt_cases (YearFromTime t) 99) as [H99|H99]|].
  - unfold Date_UTC, MakeFullYear.
    destruct (Z.leb_spec 0 (YearFromTime t)); [|lia].
    destruct (Z.leb_spec (YearFromTime t) 99); [|lia]. cbn [andb].
    pose proof (MonthFromTime_range t) as Hm.
    pose proof (DateFromTime_range t) as Hd.
    rewrite MakeDay_small by assumption.
    pose proof (MonthStart_range (LeapDays (1900 + YearFromTime t)) (MonthFromTime t)
                  (LeapDays_range _) Hm) as Hms.
    pose proof (DayFromYear_mono 1900 (1900 + YearFromTime t) ltac:(lia)) as Hlo.
    pose proof (DayFromYear_mono (1900 + YearFromTime t) 1999 ltac:(lia)) as Hhi.
    change (DayFromYear 1900) with (-25567) in Hlo.
    change (DayFromYear 1999) with 10592 in Hhi.
    change (MakeTime 0 0 0 0) with 0.
    rewrite TimeClip_days by lia. eauto.
  - rewrite Date_UTC_fields by lia.
    rewrite TimeClip_days; [eauto|].
    unfold Day, msPerDay. Z.div_mod_to_equations; lia.
  - rewrite Date_UTC_fields by lia.
    rewrite TimeClip_days; [eauto|].
    unfold Day, msPerDay. Z.div_mod_to_equations; lia.
Qed.

Lemma daysBetweenUTC_valid a b :
  Z.abs a <= 8640000000000000 -> Z.abs b <= 8640000000000000 ->
  is_Some (daysBetweenUTC (Some a) (Some b)).
Proof.
  intros Ha Hb. unfold daysBetweenUTC.
  destruct (Date_UTC_valid a Ha) as [a0 ->].
  destruct (Date_UTC_valid b Hb) as [b0 ->]. eauto.
Qed.

Lemma addDays_bound s days t : addDays s days = Some t -> Z.abs t <= 8640000000000000.
Proof.
  unfold addDays, setUTCDate. destruct (parseUTCMidnight s); [|discriminate].
  apply TimeClip_bound.
Qed.

Section Rendering.
Context (dev : Device).
Hypothesis clock_valid : forall k, Z.abs (clock dev k) <= 8640000000000000.

(** A card that [withCountdown] completes with belongs to its visa and
    carries an integer countdown. *)
Lemma withCountdown_card v w item w' :
  withCountdown dev v w = (Normal item, w') ->
  visa item = v /\ hasCountdown item.
Proof using clock_valid.
  unfold withCountdown, computeCountdown, now.
  unfold mbind, Async_mbind, Async_bind. simpl.
  destruct (addDays (entryDate v) (durationDays v)) as [t|] eqn:E; simpl;
    [|discriminate].
  intros [= <- <-]. split; [reflexivity|].
  unfold hasCountdown. simpl.
  apply daysBetweenUTC_valid; [apply clock_valid|].
  now apply addDays_bound in E.
Qed.

Lemma mapAsync_cards l : forall w items w',
  mapAsync (withCountdown dev) l w = (Normal items, w') ->
  map visa items = l /\ Forall hasCountdown items.
Proof using clock_valid.
  induction l as [|v vs IH]; intros w items w'; simpl.
  - intros [= <- <-]. auto.
  - unfold mbind, Async_mbind, Async_bind.
    destruct (withCountdown dev v w) as [[item|e] w1] eqn:E1; [|discriminate].
    destruct (mapAsync (withCountdown dev) vs w1) as [[rest|e] w2] eqn:E2;
      [|discriminate].
    intros [= <- <-].
    apply withCountdown_card in E1 as [Ev Hc].
    apply IH in E2 as [Evs Hcs]. simpl. split; [congruence|now constructor].
Qed.

(** Whenever the home screen has a list to render, it holds one card per
    stored visa, each with an integer countdown, in canonical order: by band
    rank, then by days remaining, and cards with the same rank and the same
    days remaining keep the order their visas came in. *)
Theorem rendered_list_is_canonical (visas : list Visa) (w w' : World)
    (l : list VisaCardItem) :
  data dev visas w = (Normal l, w') ->
  exists items,
    mapAsync (withCountdown dev) visas w = (Normal items, w') /\
    map visa items = visas /\
    Permutation l items /\
    StronglySorted cardLe l /\
    (forall r d, List.filter (sameKey r d) l = List.filter (sameKey r d) items) /\
    (forall x, rank x = bandRank (status x)).
Proof using clock_valid.
  unfold data. unfold mbind, Async_mbind, Async_bind.
  destruct (mapAsync (withCountdown dev) visas w) as [[items|e] w1] eqn:E;
    [|discriminate].
  intros [= <- <-]. exists items.
  destruct (mapAsync_cards _ _ _ _ E) as [Hv Hc].
  destruct (sort_cards_canonical items Hc) as (Hp & Hs & Hst & Hr).
  auto 10.
Qed.

End Rendering.

(* ================================================================= *)
(** * Settings on read                                                *)
(* ================================================================= *)

Section SettingsFacts.
Context `{Builtins}.

Lemma getReminderSettings_reads w :
  getReminderSettings w = (Normal (readSettings w), w).
Proof. reflexivity. Qed.

Lemma readSettings_storage w1 w2 :
  storage w1 = storage w2 -> readSettings w1 = readSettings w2.
Proof.
  unfold readSettings, getReminderSettings. simpl. now intros ->.
Qed.

Lemma clampInt_finite q lo hi fallback :
  lo <= hi ->
  (floor q < lo -> clampInt (Fin q) lo hi fallback = lo) /\
  (hi < floor q -> clampInt (Fin q) lo hi fallback = hi) /\
  (lo <= floor q <= hi -> clampInt (Fin q) lo hi fallback = floor q).
Proof.
  intros Hlh. unfold clampInt. cbv zeta.
  destruct (Z.ltb_spec (floor q) lo), (Z.gtb_spec (floor q) hi);
    repeat split; intros; lia.
Qed.

(** C5, as amended. A stored hour or minute that is not a finite number
    reads as the default (hour 9, minute 0); a finite one is floored and
    clamped to its range, so below the range it reads as the lower bound
    (0) and above it as the upper bound (23 for the hour, 59 for the
    minute); a missing one reads as the default. *)
Theorem time_of_day_on_read (w : World) :
  exists s, getReminderSettings w = (Normal s, w) /\
    (forall v, items (storage w) !! KEY_REMINDER_HOUR = Some v ->
       match Number v with
       | Fin q => (floor q < 0 -> hour s = 0) /\ (23 < floor q -> hour s = 23) /\
                  (0 <= floor q <= 23 -> hour s = floor q)
       | _ => hour s = 9
       end) /\
    (forall v, items (storage w) !! KEY_REMINDER_MIN = Some v ->
       match Number v with
       | Fin q => (floor q < 0 -> minute s = 0) /\ (59 < floor q -> minute s = 59) /\
                  (0 <= floor q <= 59 -> minute s = floor q)
       | _ => minute s = 0
       end) /\
    (items (storage w) !! KEY_REMINDER_HOUR = None -> hour s = 9) /\
    (items (storage w) !! KEY_REMINDER_MIN = None -> minute s = 0).
Proof.
  exists (readSettings w). split; [apply getReminderSettings_reads|].
  unfold readSettings, getReminderSettings. simpl.
  repeat split.
  - intros v ->. destruct (Number v); try reflexivity.
    apply clampInt_finite. lia.
  - intros v ->. destruct (Number v); try reflexivity.
    apply clampInt_finite. lia.
  - now intros ->.
  - now intros ->.
Qed.

End SettingsFacts.

Arguments readSettings {_} w : simpl never.

(* ================================================================= *)
(** * Observations on a log                                           *)
(* ================================================================= *)

Lemma scheduled_app l1 l2 : scheduled (l1 ++ l2) = scheduled l1 ++ scheduled l2.
Proof. apply flat_map_app. Qed.

Lemma alerts_app l1 l2 : alerts (l1 ++ l2) = alerts l1 ++ alerts l2.
Proof. apply flat_map_app. Qed.



(* ================================================================= *)
(** * The add flow                                                    *)
(* ================================================================= *)

Section AddFacts.
Context `{Builtins} (dev : Device).


(** Scheduling touches neither the storage nor the alerts, whatever the
    notification subsystem answers. *)
Lemma scheduleVisaReminder_frame params w r w' :
  scheduleVisaReminder dev params w = (r, w') ->
  storage w' = storage w /\ alerts (log w') = alerts (log w).
Proof.
  unfold scheduleVisaReminder. destruct (web dev).
  - intros [= <- <-]. auto.
  - unfold mbind, Async_mbind, Async_bind, now. simpl.
    destruct (date_le _ _).
    + intros [= <- <-]. auto.
    + unfold requestSchedule. simpl.
      destruct (scheduleNotificationAsync dev (log w) params);
        intros [= <- <-]; simpl; rewrite alerts_app, app_nil_r; auto.
Qed.

Lemma scheduleVisaReminder_resolves params w :
  (forall asked req, exists i, scheduleNotificationAsync dev asked req = Normal i) ->
  exists i w', scheduleVisaReminder dev params w = (Normal i, w').
Proof.
  intros Hok. unfold scheduleVisaReminder. destruct (web dev); [eauto|].
  unfold mbind, Async_mbind, Async_bind, now. simpl.
  destruct (date_le _ _); [eauto|].
  unfold requestSchedule. simpl.
  destruct (Hok (log w) params) as [i ->]. eauto.
Qed.

Lemma push_length ids i : (length (push ids i) <= S (length ids))%nat.
Proof.
  destruct i as [[|c r]|]; simpl; try lia. rewrite length_app. simpl. lia.
Qed.

Section Loop.
Variables (cc : string) (s : ReminderSettings) (expiryUTC : Date).

Lemma scheduleEach_frame remindDays : forall ids w r w',
  scheduleEach dev cc s expiryUTC remindDays ids w = (r, w') ->
  storage w' = storage w /\ alerts (log w') = alerts (log w).
Proof.
  induction remindDays as [|d rest IH]; intros ids w r w'; simpl.
  - intros [= <- <-]. auto.
  - unfold mbind, Async_mbind, Async_bind.
    destruct (scheduleVisaReminder dev _ w) as [[i|e] w1] eqn:E.
    + intros E'. apply IH in E'. apply scheduleVisaReminder_frame in E.
      destruct E, E'. split; congruence.
    + intros [= <- <-]. now apply scheduleVisaReminder_frame in E.
Qed.

Lemma scheduleEach_resolves remindDays :
  (forall asked req, exists i, scheduleNotificationAsync dev asked req = Normal i) ->
  forall ids w, exists ids' w',
    scheduleEach dev cc s expiryUTC remindDays ids w = (Normal ids', w') /\
    (length ids' <= length ids + length remindDays)%nat.
Proof.
  intros Hok. induction remindDays as [|d rest IH]; intros ids w; simpl.
  - exists ids, w. split; [reflexivity|lia].
  - unfold mbind, Async_mbind, Async_bind.
    destruct (scheduleVisaReminder_resolves (reminder dev cc s expiryUTC d) w Hok)
      as (i & w1 & ->).
    destruct (IH (push ids i) w1) as (ids' & w' & -> & Hlen).
    exists ids', w'. split; [reflexivity|].
    pose proof (push_length ids i). lia.
Qed.


End Loop.

Lemma ensureNotifPermission_frame w :
  exists b w', ensureNotifPermission dev w = (Normal b, w') /\
    storage w' = storage w /\ alerts (log w') = alerts (log w) /\
    scheduled (log w') = scheduled (log w) /\
    (web dev = true \/ (granted dev = false /\ grantedOnRequest dev = false) -> b = false).
Proof.
  unfold ensureNotifPermission. destruct (web dev).
  - exists false, w. intuition.
  - unfold mbind, Async_mbind, Async_bind, emit. simpl.
    destruct (granted dev).
    + eexists _, _. split; [reflexivity|]. simpl.
      rewrite alerts_app, scheduled_app, !app_nil_r. intuition congruence.
    + eexists _, _. split; [reflexivity|]. simpl.
      rewrite !alerts_app, !scheduled_app, !app_nil_r. intuition congruence.
Qed.

(** The scheduling block never touches the storage or the alerts. *)
Lemma scheduleReminders_frame cc visa w r w' :
  scheduleReminders dev cc visa w = (r, w') ->
  storage w' = storage w /\ alerts (log w') = alerts (log w).
Proof.
  unfold scheduleReminders. destruct (web dev); cbn [negb].
  { intros [= <- <-]. auto. }
  unfold mbind, Async_mbind, Async_bind.
  destruct (ensureNotifPermission_frame w) as (b & w1 & -> & Hs1 & Ha1 & _).
  destruct b.
  - rewrite getReminderSettings_reads.
    destruct (scheduleEach _ _ _ _ _ _ w1) as [[ids|e] w2] eqn:E;
      apply scheduleEach_frame in E; destruct E;
      intros [= <- <-]; split; congruence.
  - intros [= <- <-]. auto.
Qed.

(** Without permission, or when no schedule request is rejected, the
    block completes normally. *)
Lemma scheduleReminders_resolves cc visa w :
  notificationIds visa = Some [] ->
  web dev = true \/ (granted dev = false /\ grantedOnRequest dev = false) \/
  (forall asked req, exists i, scheduleNotificationAsync dev asked req = Normal i) ->
  exists ids w',
    scheduleReminders dev cc visa w = (Normal (withNotificationIds visa ids), w') /\
    (length ids <= length (offsetsDays (readSettings w)))%nat.
Proof.
  intros Hdraft Hcase.
  assert (Hsame : withNotificationIds visa [] = visa).
  { destruct visa. simpl in *. unfold withNotificationIds. simpl. now subst. }
  unfold scheduleReminders. destruct (web dev) eqn:Hweb; cbn [negb].
  { exists [], w. rewrite Hsame. split; [reflexivity|cbn [length]; lia]. }
  unfold mbind, Async_mbind, Async_bind.
  destruct (ensureNotifPermission_frame w) as (b & w1 & -> & Hs1 & _ & _ & Hb).
  destruct b.
  - rewrite getReminderSettings_reads.
    destruct Hcase as [Hc|[Hc|Hok]]; [discriminate| |].
    { specialize (Hb (or_intror Hc)). discriminate. }
    destruct (scheduleEach_resolves cc (readSettings w1)
                (addDaysUTC (entryDate visa) (durationDays visa))
                (offsetsDays (readSettings w1)) Hok [] w1)
      as (ids & w2 & -> & Hlen).
    exists ids, w2. split; [reflexivity|].
    rewrite (readSettings_storage w w1) by congruence. cbn [length] in Hlen. lia.
  - exists [], w1. rewrite Hsame. split; [reflexivity|cbn [length]; lia].
Qed.


(** [onSave] on an accepted form, by the completion of its scheduling
    block: the visa is appended and the screen left, or the error is shown
    and nothing is stored. *)
Lemma onSave_accepted form w cc label days :
  validate dev form = Accepted cc label days ->
  let visa := draft form cc label days (clock dev (ticks w)) (clock dev (S (ticks w))) in
  let w0 := logged [SetSaving true] (tick (tick w)) in
  forall r w1, scheduleReminders dev cc visa w0 = (r, w1) ->
  match r with
  | Normal v =>
      onSave dev form w =
      (Normal tt,
       {| storage := {| items := items (storage w1); visas := Some (stored w1 ++ [v]) |};
          ticks := ticks w1;
          log := (log w1 ++ [Navigate "/"]) ++ [SetSaving false] |})
  | Throw e =>
      onSave dev form w =
      (Normal tt,
       {| storage := storage w1; ticks := ticks w1;
          log := (log w1 ++ [Alert "Save failed" (default "Unknown error" (message e))])
                 ++ [SetSaving false] |})
  end.
Proof.
  intros Hval visa w0 r w1 Hsched. unfold onSave. rewrite Hval.
  unfold mbind, Async_mbind, Async_bind, now, finally, try_catch, trySave.
  simpl. unfold mbind, Async_mbind, Async_bind. simpl.
  fold visa. change (scheduleReminders dev cc visa _) with (scheduleReminders dev cc visa w0).
  rewrite Hsched. destruct r; reflexivity.
Qed.

Lemma draft_fresh form cc label days t c :
  notificationIds (draft form cc label days t c) = Some [].
Proof. reflexivity. Qed.

(** C4, as amended. For a form that passes validation, when permission
    is denied (or the platform is the web), or when no schedule request is
    rejected by the notification subsystem, the record is saved, with at
    most one handle per configured offset, and no alert is shown. *)
Theorem onSave_persists (form : AddVisa.state) (w : World) (cc label : string) (days : Q) :
  validate dev form = Accepted cc label days ->
  web dev = true \/ (granted dev = false /\ grantedOnRequest dev = false) \/
  (forall asked req, exists i, scheduleNotificationAsync dev asked req = Normal i) ->
  exists v ids,
    fst (onSave dev form w) = Normal tt /\
    stored (snd (onSave dev form w)) = stored w ++ [v] /\
    countryCode v = cc /\ visaLabel v = label /\
    entryDate v = AddVisa.entryDate form /\ durationDays v = days /\
    notificationIds v = Some ids /\
    (length ids <= length (offsetsDays (readSettings w)))%nat /\
    alerts (log (snd (onSave dev form w))) = alerts (log w).
Proof.
  intros Hval Hcase.
  set (visa := draft form cc label days (clock dev (ticks w)) (clock dev (S (ticks w)))).
  set (w0 := logged [SetSaving true] (tick (tick w))).
  destruct (scheduleReminders_resolves cc visa w0 (draft_fresh _ _ _ _ _ _) Hcase)
    as (ids & w1 & Hsched & Hlen).
  pose proof (onSave_accepted form w cc label days Hval _ _ Hsched) as Hrun.
  cbv zeta in Hrun. fold visa w0 in Hrun.
  destruct (scheduleReminders_frame _ _ _ _ _ Hsched) as [Hst Hal].
  exists (withNotificationIds visa ids), ids. rewrite Hrun. cbn.
  repeat split.
  - unfold stored. cbn. now rewrite Hst.
  - now rewrite (readSettings_storage w w0) by reflexivity.
  - rewrite !alerts_app, Hal. simpl. unfold w0. cbn.
    now rewrite alerts_app, !app_nil_r.
Qed.


End AddFacts.

(* ================================================================= *)
(** * The delete flow                                                 *)
(* ================================================================= *)

Section DeleteFacts.
Context (dev : Device).



End DeleteFacts.

(* ================================================================= *)
(** * Further properties                                              *)
(* ================================================================= *)

Lemma Date_UTC_midnight y m d a0 :
  Date_UTC y m d = Some a0 -> a0 = MakeDate (Day a0) 0.
Proof.
  unfold Date_UTC. change (MakeTime 0 0 0 0) with 0.
  intros E%TimeClip_Some. subst a0. now rewrite Day_MakeDate.
Qed.

(** The day difference changes sign when its arguments are exchanged
    ([NaN] on both sides, or an integer and its opposite). *)
Theorem daysBetweenUTC_antisymmetric (a b : Date) :
  daysBetweenUTC b a = Z.opp <$> daysBetweenUTC a b.
Proof.
  unfold daysBetweenUTC. destruct a as [ta|], b as [tb|]; try reflexivity.
  destruct (Date_UTC (YearFromTime ta) _ _) as [a0|] eqn:Ea;
    destruct (Date_UTC (YearFromTime tb) _ _) as [b0|] eqn:Eb; try reflexivity.
  apply Date_UTC_midnight in Ea, Eb. rewrite Ea, Eb, !days_apart.
  simpl. f_equal. lia.
Qed.

Section ValidationFacts.
Context `{Builtins} (dev : Device).

(** The guard clauses of [onSave], read backwards. *)
Lemma validate_accepted (form : AddVisa.state) (cc label : string) (days : Q) :
  validate dev form = Accepted cc label days ->
  cc = toUpperCase (trim (AddVisa.countryCode form)) /\
  String.length cc = 2%nat /\
  label = trim (AddVisa.visaLabel form) /\
  label <> EmptyString /\
  isValidDateYYYYMMDD (LocalTZA dev) (AddVisa.entryDate form) = true /\
  Number (trim (AddVisa.durationDays form)) = Fin days /\
  (1 <= days <= 365)%Q.
Proof.
  unfold validate. cbv zeta.
  destruct (Nat.eqb_spec (String.length (toUpperCase (trim (AddVisa.countryCode form)))) 2)
    as [Hlen|]; [|discriminate]. cbn [negb].
  destruct (String.eqb_spec (trim (AddVisa.visaLabel form)) EmptyString) as [|Hlabel];
    [discriminate|].
  destruct (isValidDateYYYYMMDD _ _) eqn:Hdate; [|discriminate]. cbn [negb].
  destruct (Number _) as [q| | |] eqn:Hnum; try discriminate.
  destruct (Qlt_bool q 1) eqn:H1; [discriminate|].
  destruct (Qlt_bool 365 q) eqn:H365; [discriminate|]. cbn [orb].
  intros [= <- <- <-]. repeat split; try assumption; try reflexivity.
  - unfold Qlt_bool in H1. apply negb_false_iff in H1. now apply Qle_bool_iff.
  - unfold Qlt_bool in H365. apply negb_false_iff in H365. now apply Qle_bool_iff.
Qed.

(** What an accepted form satisfies: the country code is the trimmed,
    upper-cased input and has length 2; the label is the trimmed input and
    is not empty; the entry date passes the validator; the duration is a
    finite number from 1 to 365. *)
Theorem accepted_form (form : AddVisa.state) (cc label : string) (days : Q) :
  validate dev form = Accepted cc label days ->
  cc = toUpperCase (trim (AddVisa.countryCode form)) /\
  String.length cc = 2%nat /\
  label = trim (AddVisa.visaLabel form) /\
  label <> EmptyString /\
  isValidDateYYYYMMDD (LocalTZA dev) (AddVisa.entryDate form) = true /\
  Number (trim (AddVisa.durationDays form)) = Fin days /\
  (1 <= days <= 365)%Q.
Proof. exact (validate_accepted form cc label days). Qed.

(** [onSave] on a rejected form. *)
Lemma onSave_rejected (form : AddVisa.state) (heading msg : string)
    (w : World) :
  validate dev form = Rejected heading msg ->
  onSave dev form w = (Normal tt, logged [Alert heading msg] w).
Proof. intros Hval. unfold onSave. now rewrite Hval. Qed.

(** A rejected form has one effect: the alert. Nothing is read from the
    clock, asked of the notification service, or written to storage. *)
Theorem rejected_form_only_alerts (form : AddVisa.state) (heading msg : string)
    (w : World) :
  validate dev form = Rejected heading msg ->
  onSave dev form w = (Normal tt, logged [Alert heading msg] w).
Proof. exact (onSave_rejected form heading msg w). Qed.

End ValidationFacts.

(** With none of the four settings stored, the settings read are the
    defaults: enabled, 09:00, offsets 14, 7, 3 and 0. *)
Theorem settings_default `{Builtins} (w : World) :
  items (storage w) !! KEY_NOTIF_ENABLED = None ->
  items (storage w) !! KEY_REMINDER_HOUR = None ->
  items (storage w) !! KEY_REMINDER_MIN = None ->
  items (storage w) !! KEY_REMINDER_OFFSETS = None ->
  getReminderSettings w = (Normal DEFAULTS, w).
Proof.
  intros He Hh Hm Ho. rewrite getReminderSettings_reads. f_equal. f_equal.
  unfold readSettings, getReminderSettings. simpl. now rewrite He, Hh, Hm, Ho.
Qed.


Lemma setUTCDate_midnight t dt u :
  TimeWithinDay t = 0 -> setUTCDate t dt = Some u -> u = MakeDate (Day u) 0.
Proof.
  unfold setUTCDate. intros -> E%TimeClip_Some. subst u. now rewrite Day_MakeDate.
Qed.


Section Planning.
Context (dev : Device) (s : ReminderSettings).
Hypothesis hour_range : 0 <= hour s <= 23.
Hypothesis minute_range : 0 <= minute s <= 59.

(** The local day and time of a planned instant, by the side of UTC the
    device is on: [shift] is 0 from UTC eastwards and 1 west of UTC. *)
Lemma fireLocal_wallClock t d f shift :
  TimeWithinDay t = 0 ->
  - shift * msPerDay <= LocalTZA dev < (1 - shift) * msPerDay ->
  fireLocal dev s (Some t) d = Some f ->
  exists u, setUTCDate t (inject_Z (DateFromTime t) - d)%Q = Some u /\
    Day (LocalTime (LocalTZA dev) f) = Day u - shift /\
    HourFromTime (LocalTime (LocalTZA dev) f) = hour s /\
    MinFromTime (LocalTime (LocalTZA dev) f) = minute s.
Proof using hour_range minute_range.
  intros Ht Htz. unfold fireLocal, atLocalTime.
  destruct (setUTCDate t _) as [u|] eqn:Eu; [|discriminate].
  intros Ef%TimeClip_Some. exists u. split; [reflexivity|].
  pose proof (setUTCDate_midnight _ _ _ Ht Eu) as Hu.
  set (X := Day u) in *. clearbody X. subst u f.
  unfold LocalTime, UTC, Day, HourFromTime, MinFromTime, MakeDate, MakeTime,
    msPerDay, msPerHour, msPerMinute, msPerSecond in *.
  repeat split; Z.div_mod_to_equations; lia.
Qed.


(** West of UTC, the planned reminder falls on the day before. *)
Lemma fireLocal_west_of_UTC (t : Z) (d : Q) (f : Z) :
  TimeWithinDay t = 0 ->
  - msPerDay <= LocalTZA dev < 0 ->
  fireLocal dev s (Some t) d = Some f ->
  exists u, setUTCDate t (inject_Z (DateFromTime t) - d)%Q = Some u /\
    Day (LocalTime (LocalTZA dev) f) = Day u - 1.
Proof using hour_range minute_range.
  intros Ht Htz Hf.
  destruct (fireLocal_wallClock t d f 1 Ht ltac:(lia) Hf) as (u & Eu & Hday & _).
  eauto.
Qed.

End Planning.

(* ================================================================= *)
(** * Worked scenarios                                                *)
(* ================================================================= *)

(** Scenario A and B: entry 2026-01-01 for 30 days expires on 2026-01-31;
    30 days remain on 2026-01-01 (safe) and 5 on 2026-01-26 (urgent). *)
Example scenario_A_B :
  calendarDay (addDays "2026-01-01" 30) = Some (2026, 1, 31) /\
  daysBetweenUTC (parseUTCMidnight "2026-01-01") (addDays "2026-01-01" 30) = Some 30 /\
  status (card (vietnam []) "2026-01-31" 30) = safe /\
  daysBetweenUTC (parseUTCMidnight "2026-01-26") (addDays "2026-01-01" 30) = Some 5 /\
  status (card (vietnam []) "2026-01-31" 5) = urgent.
Proof. vm_compute. repeat split; reflexivity. Qed.

(** The validator rejects 2023-02-30, in any of these time zones. *)
Example invalid_date_rejected :
  isValidDateYYYYMMDD 0 "2023-02-30" = false /\
  isValidDateYYYYMMDD (-300 * msPerMinute) "2023-02-30" = false /\
  isValidDateYYYYMMDD (420 * msPerMinute) "2024-02-29" = true.
Proof. vm_compute. repeat split; reflexivity. Qed.

(** C1 (defect of the code). The reminders flag is stored as off, and
    saving a visa on a phone with permission still issues the four schedule
    requests and stores their four handles: [onSave] reads the settings and
    never looks at [enabled]. *)
Theorem reminders_scheduled_while_disabled :
  let w := worldWith {[ KEY_NOTIF_ENABLED := "0"%string ]} None in
  let w' := snd (onSave (phone 420 newYear2026) (touristForm "VN" "2026-01-01" "30") w) in
  enabled (readSettings w) = false /\
  length (scheduled (log w')) = 4%nat /\
  map notificationIds (stored w') = [Some ["n2"; "n3"; "n4"; "n5"]]%string.
Proof. vm_compute. repeat split; reflexivity. Qed.

(** Scenario C east of UTC (UTC+7): the four reminders fire at 09:00 local
    time on 17, 24, 28 and 31 January 2026. *)
Example scenario_C_east_of_UTC :
  let dev := phone 420 newYear2026 in
  let w' := snd (onSave dev (touristForm "VN" "2026-01-01" "30") emptyWorld) in
  map (fun r => wallClock (LocalTZA dev) (date r)) (scheduled (log w'))
  = [Some (2026, 1, 17, 9, 0); Some (2026, 1, 24, 9, 0);
     Some (2026, 1, 28, 9, 0); Some (2026, 1, 31, 9, 0)].
Proof. vm_compute. reflexivity. Qed.

(** C2 (defect of the code). West of UTC (here UTC-5) the expiry is
    2026-01-31, yet the four reminders are set for 09:00 local time on 16,
    23, 27 and 30 January: one day before the calendar day the offset
    names, the last with the text "expires today". [atLocalTime] sets the
    hour on the local day of UTC midnight, which west of UTC is the day
    before. *)
Theorem reminders_a_day_early_west_of_UTC :
  let dev := phone (-300) newYear2026 in
  let w' := snd (onSave dev (touristForm "VN" "2026-01-01" "30") emptyWorld) in
  calendarDay (addDaysUTC "2026-01-01" 30) = Some (2026, 1, 31) /\
  map (fun r => wallClock (LocalTZA dev) (date r)) (scheduled (log w'))
  = [Some (2026, 1, 16, 9, 0); Some (2026, 1, 23, 9, 0);
     Some (2026, 1, 27, 9, 0); Some (2026, 1, 30, 9, 0)] /\
  map body (scheduled (log w'))
  = [ExpiresIn "VN" 14; ExpiresIn "VN" 7; ExpiresIn "VN" 3; ExpiresToday "VN"].
Proof. vm_compute. repeat split; reflexivity. Qed.



(** C4: the claim fails. The first schedule request is rejected; the
    [catch] block shows "Save failed" and the record is not stored. *)
Lemma onSave_stopped_by_rejected_schedule :
  let dev := failingPhone 420 newYear2026 in
  let form := touristForm "VN" "2026-01-01" "30" in
  let w' := snd (onSave dev form emptyWorld) in
  validate dev form = Accepted "VN" "Tourist" 30 /\
  stored w' = [] /\
  alerts (log w') = [("Save failed", "Failed to schedule")]%string.
Proof. vm_compute. repeat split; reflexivity. Qed.

Lemma onSave_persists_witness :
  let dev := phone 420 newYear2026 in
  let form := touristForm "VN" "2026-01-01" "30" in
  exists v ids,
    fst (onSave dev form emptyWorld) = Normal tt /\
    stored (snd (onSave dev form emptyWorld)) = stored emptyWorld ++ [v] /\
    countryCode v = "VN"%string /\ visaLabel v = "Tourist"%string /\
    entryDate v = AddVisa.entryDate form /\ durationDays v = 30%Q /\
    notificationIds v = Some ids /\
    (length ids <= length (offsetsDays (readSettings emptyWorld)))%nat /\
    alerts (log (snd (onSave dev form emptyWorld))) = alerts (log emptyWorld).
Proof.
  cbv zeta.
  apply (onSave_persists (phone 420 newYear2026)
           (touristForm "VN" "2026-01-01" "30") emptyWorld "VN" "Tourist" 30%Q).
  - vm_compute. reflexivity.
  - right. right. intros asked req. eexists. reflexivity.
Defined.

(** C5: the claim fails. A stored hour of 99 reads as 23 and a stored
    minute of 75 as 59, not as the defaults 9 and 0. *)
Lemma out_of_range_time_is_clamped :
  let w := worldWith {[ KEY_REMINDER_HOUR := "99"%string;
                        KEY_REMINDER_MIN := "75"%string ]} None in
  Number "99" = Fin 99 /\ Number "75" = Fin 75 /\
  hour (readSettings w) = 23 /\ minute (readSettings w) = 59 /\
  ~ (hour (readSettings w) = 9 /\ minute (readSettings w) = 0).
Proof.
  vm_compute. repeat split; try reflexivity. intros [E _]. discriminate E.
Qed.

(** C6 (defect of the code). The country code "12" has length 2 and no
    letter; the form is accepted and the record stored with it. The guard
    tests the length only, under an alert that asks for a 2-letter code. *)
Theorem digits_accepted_as_country_code :
  let dev := phone 420 newYear2026 in
  let form := touristForm "12" "2026-01-01" "30" in
  validate dev form = Accepted "12" "Tourist" 30 /\
  forallb isUpperLetter (String.list_ascii_of_string "12") = false /\
  map countryCode (stored (snd (onSave dev form emptyWorld))) = ["12"%string].
Proof. vm_compute. repeat split; reflexivity. Qed.

(** C8: the claim fails for some whole numbers of days. One day before
    0100-01-01 is a day of the year 99, which [Date.UTC] reads as 1999; and
    10^8 days after 2026-01-01 is past the last valid date. *)
Lemma daysBetween_addDays_fails :
  isValidDateYYYYMMDD 0 "0100-01-01" = true /\
  daysBetweenUTC (parseUTCMidnight "0100-01-01") (addDays "0100-01-01" (inject_Z (-1)))
  = Some 693959 /\
  isValidDateYYYYMMDD 0 "2026-01-01" = true /\
  daysBetweenUTC (parseUTCMidnight "2026-01-01") (addDays "2026-01-01" (inject_Z 100000000))
  = None.
Proof. vm_compute. repeat split; reflexivity. Qed.

Lemma daysBetween_addDays_witness :
  daysBetweenUTC (parseUTCMidnight "2026-01-01") (addDays "2026-01-01" (inject_Z 30))
  = Some 30.
Proof.
  apply (daysBetween_addDays 0 "2026-01-01" 30).
  - vm_compute. reflexivity.
  - lia.
Defined.

Lemma sort_is_canonical_witness :
  let l := [card (vietnam []) "2026-02-20" 20; card (vietnam ["a"]) "2026-02-05" 5;
            card (vietnam ["b"]) "2026-01-30" (-1); card (vietnam ["c"]) "2026-02-05" 5] in
  Permutation (sort compareCards l) l /\
  StronglySorted cardLe (sort compareCards l) /\
  (forall r d, List.filter (sameKey r d) (sort compareCards l)
               = List.filter (sameKey r d) l) /\
  (forall x, rank x = bandRank (status x)).
Proof.
  cbv zeta. apply sort_is_canonical.
  repeat constructor; eexists; reflexivity.
Defined.

(** The order of a list of four cards: the expired card first, then the
    two urgent cards in the order they came, then the safe one. *)
Example sort_cards_example :
  map (fun x => notificationIds (visa x))
    (sort compareCards
       [card (vietnam []) "2026-02-20" 20; card (vietnam ["a"]) "2026-02-05" 5;
        card (vietnam ["b"]) "2026-01-30" (-1); card (vietnam ["c"]) "2026-02-05" 5])
  = [Some ["b"]; Some ["a"]; Some ["c"]; Some []]%string.
Proof. vm_compute. reflexivity. Qed.


Lemma rendered_list_is_canonical_witness :
  exists l w' items,
    data (phone 420 newYear2026) fiveVisas emptyWorld = (Normal l, w') /\
    map (fun x => (id (visa x), daysRemaining x)) l
    = [("c", Some (-31)); ("d", Some 5); ("e", Some 5); ("b", Some 8);
       ("a", Some 30)]%string /\
    mapAsync (withCountdown (phone 420 newYear2026)) fiveVisas emptyWorld
    = (Normal items, w') /\
    map visa items = fiveVisas /\
    Permutation l items /\
    StronglySorted cardLe l /\
    (forall r d, List.filter (sameKey r d) l = List.filter (sameKey r d) items) /\
    (forall x, rank x = bandRank (status x)).
Proof.
  destruct (data (phone 420 newYear2026) fiveVisas emptyWorld) as [[l|e] w'] eqn:E;
    [|vm_compute in E; discriminate E].
  assert (Hclock : forall k, Z.abs (clock (phone 420 newYear2026) k) <= 8640000000000000)
    by (intros k; simpl; unfold newYear2026; lia).
  destruct (rendered_list_is_canonical (phone 420 newYear2026) Hclock
              fiveVisas emptyWorld w' l E) as (items & Hm & Hv & Hrest).
  exists l, w', items. split; [reflexivity|]. split; [|auto].
  vm_compute in E. injection E as <- _. reflexivity.
Defined.

Lemma accepted_form_witness :
  "VN"%string = toUpperCase (trim (AddVisa.countryCode (touristForm " vn " "2026-01-01" "30"))) /\
  String.length "VN" = 2%nat /\
  "Tourist"%string = trim (AddVisa.visaLabel (touristForm " vn " "2026-01-01" "30")) /\
  "Tourist"%string <> EmptyString /\
  isValidDateYYYYMMDD (LocalTZA (phone 420 newYear2026))
    (AddVisa.entryDate (touristForm " vn " "2026-01-01" "30")) = true /\
  Number (trim (AddVisa.durationDays (touristForm " vn " "2026-01-01" "30"))) = Fin 30 /\
  (1 <= 30 <= 365)%Q.
Proof.
  apply (accepted_form (phone 420 newYear2026) (touristForm " vn " "2026-01-01" "30")).
  vm_compute. reflexivity.
Defined.

Lemma rejected_form_only_alerts_witness :
  onSave (phone 420 newYear2026) (touristForm "VNM" "2026-01-01" "30") emptyWorld
  = (Normal tt,
     logged [Alert "Invalid country code" "Use a 2-letter code like VN, TH, JP."]
       emptyWorld).
Proof.
  apply (rejected_form_only_alerts (phone 420 newYear2026)).
  vm_compute. reflexivity.
Defined.

Lemma settings_default_witness :
  getReminderSettings emptyWorld = (Normal DEFAULTS, emptyWorld).
Proof. apply settings_default; reflexivity. Defined.


(* ================================================================= *)
(** * More of the settings service                                    *)
(* ================================================================= *)

Lemma clampInt_range n lo hi fallback :
  lo <= hi -> lo <= fallback <= hi -> lo <= clampInt n lo hi fallback <= hi.
Proof.
  intros Hlh Hf. unfold clampInt. destruct n; try assumption. cbv zeta.
  destruct (Z.ltb_spec (floor q) lo); [lia|].
  destruct (Z.gtb_spec (floor q) hi); lia.
Qed.

Lemma clampInt_integer z lo hi fallback :
  lo <= z <= hi -> clampInt (Fin (inject_Z z)) lo hi fallback = z.
Proof.
  intros Hz. unfold clampInt, floor. cbv zeta. rewrite Qfloor_Z.
  destruct (Z.ltb_spec z lo); [lia|]. destruct (Z.gtb_spec z hi); [lia|reflexivity].
Qed.

Lemma inRange_spec x : inRange x = true -> (0 <= x <= 365)%Q.
Proof.
  unfold inRange. intros [H0 H1]%andb_prop. split; now apply Qle_bool_iff.
Qed.

Lemma offsetsOf_range parsed : Forall (fun d => (0 <= d <= 365)%Q) (offsetsOf parsed).
Proof.
  assert (Hd : Forall (fun d => (0 <= d <= 365)%Q) (offsetsDays DEFAULTS)).
  { simpl. repeat constructor; unfold Qle; simpl; lia. }
  unfold offsetsOf. destruct parsed as [n|l|]; try exact Hd.
  destruct (forallb _ l); [|exact Hd].
  apply List.Forall_forall. intros d Hin. apply filter_In in Hin as [_ Hin].
  now apply inRange_spec.
Qed.

Section SettingsWrites.
Context `{Builtins}.

(** Whatever the store holds, the settings read are in range: the hour
    from 0 to 23, the minute from 0 to 59, every offset from 0 to 365. *)
Theorem settings_in_range (w : World) :
  exists s, getReminderSettings w = (Normal s, w) /\
    0 <= hour s <= 23 /\ 0 <= minute s <= 59 /\
    Forall (fun d => (0 <= d <= 365)%Q) (offsetsDays s).
Proof.
  exists (readSettings w). split; [apply getReminderSettings_reads|].
  assert (Hd : Forall (fun d => (0 <= d <= 365)%Q) (offsetsDays DEFAULTS)).
  { simpl. repeat constructor; unfold Qle; simpl; lia. }
  unfold readSettings, getReminderSettings. simpl. repeat split.
  - destruct (items (storage w) !! KEY_REMINDER_HOUR); [|lia].
    apply clampInt_range; lia.
  - destruct (items (storage w) !! KEY_REMINDER_HOUR); [|lia].
    apply clampInt_range; lia.
  - destruct (items (storage w) !! KEY_REMINDER_MIN); [|lia].
    apply clampInt_range; lia.
  - destruct (items (storage w) !! KEY_REMINDER_MIN); [|lia].
    apply clampInt_range; lia.
  - destruct (items (storage w) !! KEY_REMINDER_OFFSETS) as [[|c r]|]; try exact Hd.
    destruct (JSON_parse _); [apply offsetsOf_range|exact Hd].
Qed.

(** The flag written by [setReminderEnabled] is the flag read back, and
    the write leaves the time, the offsets and the visas as they were. *)
Theorem setReminderEnabled_read (b : bool) (w : World) :
  enabled (readSettings (snd (setReminderEnabled b w))) = b /\
  hour (readSettings (snd (setReminderEnabled b w))) = hour (readSettings w) /\
  minute (readSettings (snd (setReminderEnabled b w))) = minute (readSettings w) /\
  offsetsDays (readSettings (snd (setReminderEnabled b w))) = offsetsDays (readSettings w) /\
  visas (storage (snd (setReminderEnabled b w))) = visas (storage w).
Proof.
  unfold readSettings, getReminderSettings, setReminderEnabled, setItem. simpl.
  rewrite lookup_insert_eq, !lookup_insert_ne by discriminate.
  repeat split. now destruct b.
Qed.

(** The time written by [setReminderTime] is clamped, and read back as
    written, given that [Number] reads the two stored numerals back; the
    flag and the offsets are left as they were. *)
Theorem setReminderTime_read (h m : number) (w : World) :
  Number (pretty (clampInt h 0 23 9)) = Fin (inject_Z (clampInt h 0 23 9)) ->
  Number (pretty (clampInt m 0 59 0)) = Fin (inject_Z (clampInt m 0 59 0)) ->
  hour (readSettings (snd (setReminderTime h m w))) = clampInt h 0 23 9 /\
  minute (readSettings (snd (setReminderTime h m w))) = clampInt m 0 59 0 /\
  enabled (readSettings (snd (setReminderTime h m w))) = enabled (readSettings w) /\
  offsetsDays (readSettings (snd (setReminderTime h m w))) = offsetsDays (readSettings w).
Proof.
  intros Hh Hm.
  unfold readSettings, getReminderSettings, setReminderTime, setItem.
  unfold mbind, Async_mbind, Async_bind. simpl.
  rewrite !lookup_insert_eq.
  rewrite (lookup_insert_ne _ KEY_REMINDER_MIN KEY_REMINDER_HOUR) by discriminate.
  rewrite !lookup_insert_eq.
  rewrite !lookup_insert_ne by discriminate.
  rewrite Hh, Hm.
  rewrite !clampInt_integer by (apply clampInt_range; lia).
  repeat split.
Qed.

(** After [resetAllSettings] the settings read are the defaults, and the
    visas are left as they were. *)
Theorem resetAllSettings_read (w : World) :
  fst (resetAllSettings w) = Normal tt /\
  readSettings (snd (resetAllSettings w)) = DEFAULTS /\
  visas (storage (snd (resetAllSettings w))) = visas (storage w).
Proof.
  unfold readSettings, getReminderSettings, resetAllSettings, removeItem.
  unfold mbind, Async_mbind, Async_bind. simpl.
  repeat split.
  repeat (rewrite ?lookup_delete_eq; rewrite ?lookup_delete_ne by discriminate).
  reflexivity.
Qed.

End SettingsWrites.

(* ================================================================= *)
(** * More of the storage service                                     *)
(* ================================================================= *)

(** [deleteVisa] removes every stored visa that carries the id, keeps the
    others in their order, leaves the settings alone, and has nothing more
    to remove when run again. *)
Theorem deleteVisa_removes (i : string) (w : World) :
  fst (deleteVisa i w) = Normal tt /\
  Forall (fun v => id v <> i) (stored (snd (deleteVisa i w))) /\
  (forall p : Visa -> bool,
     (forall v, p v = true -> id v <> i) ->
     List.filter p (stored (snd (deleteVisa i w))) = List.filter p (stored w)) /\
  items (storage (snd (deleteVisa i w))) = items (storage w) /\
  stored (snd (deleteVisa i (snd (deleteVisa i w)))) = stored (snd (deleteVisa i w)).
Proof.
  unfold deleteVisa, getVisas, writeVisas, stored.
  unfold mbind, Async_mbind, Async_bind. simpl.
  set (l := default [] (visas (storage w))). clearbody l.
  repeat split.
  - apply List.Forall_forall. intros v [_ Hv]%filter_In.
    apply negb_true_iff in Hv. now apply String.eqb_neq in Hv.
  - intros p Hp. induction l as [|v l IH]; [reflexivity|]. simpl.
    destruct (String.eqb_spec (id v) i) as [E|E]; simpl.
    + destruct (p v) eqn:Hv; [|exact IH]. now apply Hp in Hv.
    + now rewrite IH.
  - induction l as [|v l IH]; [reflexivity|]. simpl.
    destruct (String.eqb_spec (id v) i) as [E|E]; simpl; [exact IH|].
    destruct (String.eqb_spec (id v) i); [contradiction|]. simpl. now f_equal.
Qed.

(** Saving a visa whose id no stored visa carries, then deleting it by
    that id, gives back the stored list. *)
Theorem saveVisa_deleteVisa (v : Visa) (w : World) :
  Forall (fun x => id x <> id v) (stored w) ->
  stored (snd (saveVisa v w)) = stored w ++ [v] /\
  stored (snd (deleteVisa (id v) (snd (saveVisa v w)))) = stored w.
Proof.
  intros Hfresh.
  unfold deleteVisa, saveVisa, getVisas, writeVisas, stored in *.
  unfold mbind, Async_mbind, Async_bind. simpl.
  set (l := default [] (visas (storage w))) in *. clearbody l.
  split; [reflexivity|].
  induction Hfresh as [|x l Hx Hl IH]; simpl.
  - now rewrite String.eqb_refl.
  - destruct (String.eqb_spec (id x) (id v)); [contradiction|]. simpl. now f_equal.
Qed.

(* ================================================================= *)
(** * More of the calendar functions                                  *)
(* ================================================================= *)

(** For two valid dates outside the years 0 to 99, the day difference is
    the difference of their UTC day numbers: the time of day plays no
    part. *)
Theorem daysBetweenUTC_day_difference (a b : Z) :
  Z.abs a <= 8640000000000000 -> Z.abs b <= 8640000000000000 ->
  ~ (0 <= YearFromTime a <= 99) -> ~ (0 <= YearFromTime b <= 99) ->
  daysBetweenUTC (Some a) (Some b) = Some (Day b - Day a).
Proof.
  intros Ha Hb Hya Hyb. unfold daysBetweenUTC.
  rewrite !Date_UTC_fields by assumption.
  rewrite !TimeClip_days
    by (unfold Day, msPerDay; Z.div_mod_to_equations; lia).
  now rewrite days_apart.
Qed.



(** What the validator accepts is a real calendar date of the years 100
    to 9999: a month from 1 to 12 and a day that the month has. *)
Theorem valid_date_is_real (tza : Z) (s : string) :
  isValidDateYYYYMMDD tza s = true ->
  exists y m d, dateFields s = Some (y, m, d) /\
    100 <= y <= 9999 /\ 1 <= m <= 12 /\ 1 <= d <= DaysInMonth y m.
Proof.
  intros Hv. destruct (valid_entry _ _ Hv) as (t & Hp & _ & Hlo & _).
  unfold parseUTCMidnight in Hp.
  destruct (dateFields s) as [[[y m] d]|] eqn:Hf; [|discriminate].
  destruct (dateFields_range _ _ _ _ Hf) as (Hy & Hm & Hd).
  destruct ((1 <=? m) && (m <=? 12) && (1 <=? d) && (d <=? DaysInMonth y m)) eqn:Hc;
    [|discriminate].
  apply andb_prop in Hc as [[[H1 H2]%andb_prop H3]%andb_prop H4].
  apply Z.leb_le in H1, H2, H3, H4.
  exists y, m, d. repeat split; try lia.
  apply TimeClip_Some in Hp. subst t. change (MakeTime 0 0 0 0) with 0 in Hlo.
  rewrite Day_MakeDate, MakeDay_small in Hlo by lia.
  destruct (Z.le_gt_cases 100 y) as [|Hlt]; [assumption|exfalso].
  pose proof (MonthStart_range (LeapDays y) (m - 1) (LeapDays_range _) ltac:(lia)).
  pose proof (DayFromYear_mono (y + 1) 100 ltac:(lia)).
  pose proof (DayFromYear_step y). pose proof (LeapDays_range y).
  assert (Hdm : d <= 31).
  { unfold DaysInMonth in H4. pose proof (LeapDays_range y).
    assert (Cm : m = 1 \/ m = 2 \/ m = 3 \/ m = 4 \/ m = 5 \/ m = 6 \/ m = 7
                 \/ m = 8 \/ m = 9 \/ m = 10 \/ m = 11 \/ m = 12) by lia.
    repeat destruct Cm as [Cm|Cm]; subst m; simpl in H4; lia. }
  unfold DaysInMonth in H4.
  assert (Cm : m = 1 \/ m = 2 \/ m = 3 \/ m = 4 \/ m = 5 \/ m = 6 \/ m = 7
               \/ m = 8 \/ m = 9 \/ m = 10 \/ m = 11 \/ m = 12) by lia.
  repeat destruct Cm as [Cm|Cm]; subst m; simpl in *; lia.
Qed.

(* ================================================================= *)
(** * More of the add flow                                            *)
(* ================================================================= *)



Lemma upper_not_lower c : isLowerLetter (upper c) = false.
Proof.
  destruct c as [[] [] [] [] [] [] [] []]; vm_compute; reflexivity.
Qed.

Lemma toUpperCase_no_lower s :
  forallb (fun c => negb (isLowerLetter c)) (String.list_ascii_of_string (toUpperCase s))
  = true.
Proof.
  induction s as [|c s IH]; [reflexivity|]. simpl.
  now rewrite upper_not_lower, IH.
Qed.

Section MoreAddFacts.
Context `{Builtins} (dev : Device).

(** The country code of an accepted form holds no lower-case letter. *)
Theorem accepted_code_no_lower_case (form : AddVisa.state) (cc label : string) (days : Q) :
  validate dev form = Accepted cc label days ->
  forallb (fun c => negb (isLowerLetter c)) (String.list_ascii_of_string cc) = true.
Proof.
  intros Hv. destruct (validate_accepted dev form cc label days Hv) as (-> & _).
  apply toUpperCase_no_lower.
Qed.





End MoreAddFacts.

(* ================================================================= *)
(** * Permission, the reminders switch and onboarding                 *)
(* ================================================================= *)

(** [ensureNotifPermission] answers for the platform and the permission:
    never on the web; on a device, what is already granted or else what the
    prompt gives. It asks for permission only on a device where none is
    granted yet, and touches nothing else. *)
Theorem ensureNotifPermission_prompts (dev : Device) (w : World) :
  fst (ensureNotifPermission dev w)
  = Normal (negb (web dev) && (granted dev || grantedOnRequest dev)) /\
  (In RequestPermissions (log (snd (ensureNotifPermission dev w))) ->
   In RequestPermissions (log w) \/ (web dev = false /\ granted dev = false)) /\
  storage (snd (ensureNotifPermission dev w)) = storage w /\
  ticks (snd (ensureNotifPermission dev w)) = ticks w.
Proof.
  unfold ensureNotifPermission. destruct (web dev), (granted dev) eqn:Hg;
    unfold mbind, Async_mbind, Async_bind, emit; simpl;
    (split; [reflexivity|]); (split; [|split; reflexivity]).
  - now left.
  - now left.
  - rewrite in_app_iff. intros [Hi|[Hi|[]]]; [now left|discriminate].
  - intros _. now right.
Qed.

Section Switch.
Context `{Builtins} (dev : Device).

(** The reminders switch: the flag read back is the one chosen; switching
    off asks nothing of the notification subsystem and shows no alert;
    switching on shows the alert exactly when, on a device, permission is
    neither held nor given at the prompt. *)
Theorem onToggleEnabled_outcome (next : bool) (w : World) :
  fst (onToggleEnabled dev next w) = Normal tt /\
  enabled (readSettings (snd (onToggleEnabled dev next w))) = next /\
  visas (storage (snd (onToggleEnabled dev next w))) = visas (storage w) /\
  (next = false -> log (snd (onToggleEnabled dev next w)) = log w) /\
  (next = true ->
   alerts (log (snd (onToggleEnabled dev next w)))
   = alerts (log w) ++
     if negb (web dev) && negb (granted dev) && negb (grantedOnRequest dev)
     then [("Notifications not enabled"%string,
            "Permission was not granted. You can enable notifications in your phone settings."%string)]
     else []).
Proof.
  unfold onToggleEnabled, ensurePermission, setReminderEnabled, setItem, alert, emit.
  unfold readSettings, getReminderSettings.
  unfold mbind, Async_mbind, Async_bind.
  destruct next, (web dev), (granted dev), (grantedOnRequest dev); simpl;
    rewrite ?lookup_insert_eq; repeat split; try discriminate;
    intros _; rewrite ?alerts_app; simpl; now rewrite ?app_nil_r.
Qed.

End Switch.

(** Onboarding: once [finish] has run, the flag is read as done and the
    guard of the home screen lets it show, without a redirect; the settings
    and the visas are as before. *)
Theorem finish_then_guard (w : World) :
  fst (finish w) = Normal tt /\
  fst (isOnboardingDone (snd (finish w))) = Normal true /\
  fst (onboardingGuard (snd (finish w))) = Normal false /\
  log (snd (onboardingGuard (snd (finish w)))) = log w ++ [Navigate "/"] /\
  visas (storage (snd (finish w))) = visas (storage w) /\
  (forall k, k <> KEY_ONBOARDING_DONE ->
     items (storage (snd (finish w))) !! k = items (storage w) !! k).
Proof.
  unfold finish, onboardingGuard, isOnboardingDone, setOnboardingDone, setItem,
    getItem, emit.
  unfold mbind, Async_mbind, Async_bind. simpl.
  rewrite lookup_insert_eq. simpl. repeat split.
  intros k Hk. now rewrite lookup_insert_ne.
Qed.

(** Until the flag is stored as "1" (missing, cleared, or anything else),
    the guard sends the user to onboarding. *)
Theorem guard_redirects (w : World) :
  items (storage w) !! KEY_ONBOARDING_DONE <> Some "1"%string ->
  onboardingGuard w = (Normal true, logged [Navigate "/onboarding"] w) /\
  fst (onboardingGuard (snd (clearOnboardingDone w))) = Normal true.
Proof.
  intros Hk. unfold onboardingGuard, isOnboardingDone, clearOnboardingDone,
    removeItem, getItem, emit.
  unfold mbind, Async_mbind, Async_bind. simpl.
  rewrite lookup_delete_eq. simpl. split; [|reflexivity].
  destruct (items (storage w) !! KEY_ONBOARDING_DONE) as [s|]; [|reflexivity].
  destruct (String.eqb_spec s "1"); [congruence|reflexivity].
Qed.

(* ================================================================= *)
(** * Instances of the properties above                               *)
(* ================================================================= *)

(** Saving 9:30 after the screen's checks: an hour of 9.5 is stored, and
    read back, as 9. *)
Lemma setReminderTime_read_witness :
  hour (readSettings (snd (setReminderTime (Fin (19 # 2)) (Fin 30) emptyWorld))) = 9 /\
  minute (readSettings (snd (setReminderTime (Fin (19 # 2)) (Fin 30) emptyWorld))) = 30 /\
  enabled (readSettings (snd (setReminderTime (Fin (19 # 2)) (Fin 30) emptyWorld)))
  = enabled (readSettings emptyWorld) /\
  offsetsDays (readSettings (snd (setReminderTime (Fin (19 # 2)) (Fin 30) emptyWorld)))
  = offsetsDays (readSettings emptyWorld).
Proof.
  apply (setReminderTime_read (Fin (19 # 2)) (Fin 30) emptyWorld);
    vm_compute; reflexivity.
Defined.

Lemma saveVisa_deleteVisa_witness :
  stored (snd (saveVisa (visaOf "b" "2025-12-10" 30)
                 (worldWith ∅ (Some [visaOf "a" "2026-01-01" 30]))))
  = stored (worldWith ∅ (Some [visaOf "a" "2026-01-01" 30]))
    ++ [visaOf "b" "2025-12-10" 30] /\
  stored (snd (deleteVisa (id (visaOf "b" "2025-12-10" 30))
                 (snd (saveVisa (visaOf "b" "2025-12-10" 30)
                         (worldWith ∅ (Some [visaOf "a" "2026-01-01" 30]))))))
  = stored (worldWith ∅ (Some [visaOf "a" "2026-01-01" 30])).
Proof.
  apply saveVisa_deleteVisa. repeat constructor. discriminate.
Defined.

(** From the evening of 2026-01-01 to the morning of 2026-01-03: two days. *)
Lemma daysBetweenUTC_day_difference_witness :
  daysBetweenUTC (Some (newYear2026 + 23 * msPerHour))
                 (Some (newYear2026 + 2 * msPerDay + msPerHour))
  = Some (Day (newYear2026 + 2 * msPerDay + msPerHour)
          - Day (newYear2026 + 23 * msPerHour)) /\
  Day (newYear2026 + 2 * msPerDay + msPerHour) - Day (newYear2026 + 23 * msPerHour) = 2.
Proof.
  split; [|reflexivity].
  apply daysBetweenUTC_day_difference; vm_compute; try discriminate;
    intros [_ Hy]; apply Hy; reflexivity.
Defined.


Lemma valid_date_is_real_witness :
  exists y m d, dateFields "2024-02-29" = Some (y, m, d) /\
    100 <= y <= 9999 /\ 1 <= m <= 12 /\ 1 <= d <= DaysInMonth y m.
Proof.
  apply (valid_date_is_real 0 "2024-02-29"). vm_compute. reflexivity.
Defined.

Lemma accepted_code_no_lower_case_witness :
  forallb (fun c => negb (isLowerLetter c)) (String.list_ascii_of_string "VN") = true.
Proof.
  apply (accepted_code_no_lower_case (phone 420 newYear2026)
           (touristForm " vn " "2026-01-01" "30") "VN" "Tourist" 30%Q).
  vm_compute. reflexivity.
Defined.

Lemma guard_redirects_witness :
  onboardingGuard emptyWorld = (Normal true, logged [Navigate "/onboarding"] emptyWorld) /\
  fst (onboardingGuard (snd (clearOnboardingDone emptyWorld))) = Normal true.
Proof.
  apply guard_redirects. vm_compute. discriminate.
Defined.
